(** * Kaufland shipping-label generator ([getLabel.py]): a shallow embedding

    The script reads the rows of one order from a database, aggregates
    weight and dimensions, signs and sends a label request, searches the
    response for a download URL, stores the document, extracts a 12-digit
    tracking number from the PDF text and writes tracking number, carrier
    and the collected log back to the database.

    Modelling conventions.
    - A Python [str] is a list of Unicode code points ([list N]).
    - A database cell is [None], an [int] or a [str].  Every use the script
      makes of a cell goes through [str(value)], so a cell of another type
      (a [Decimal], say) is represented by its [str()] image.
    - [decimal.Decimal] is modelled with the default context of the module
      (precision 28, ROUND_HALF_EVEN, Emax 999999, Emin -999999, traps on
      InvalidOperation and Overflow).  A finite number is a signed
      coefficient and an exponent; the sign of a zero, which nothing in the
      script observes, is not kept.  Binary floating point is not modelled.
    - Exceptions are values of [exn]; a computation that may raise returns
      a [result].
    - The Unicode tables behind [str.isalnum], [str.lower] and the regular
      expression classes are modelled on Latin-1 and two further code
      points; the matcher for [re.search] takes the classes as parameters.
    - The main flow is a state-and-exception monad over a [world] that
      answers the database, network, file and PDF calls; the calls made are
      recorded in order. *)

From Stdlib Require Import ZArith NArith List Bool Lia String Ascii.
From Stdlib Require Import Numbers.DecimalString Numbers.DecimalZ Floats.SpecFloat.
From Stdlib Require Numbers.DecimalPos.
Import ListNotations.

Set Warnings "-register-all".

Local Open Scope Z_scope.

(* ================================================================== *)
(** ** Text *)

Module Text.

Definition char := N.
Definition str := list char.

(** An ASCII literal as a Python string. *)
Definition lit (s : string) : str := map N_of_ascii (list_ascii_of_string s).

Fixpoint str_eqb (a b : str) : bool :=
  match a, b with
  | [], [] => true
  | x :: a', y :: b' => N.eqb x y && str_eqb a' b'
  | _, _ => false
  end.

Definition in_range (lo hi c : N) : bool := (N.leb lo c && N.leb c hi)%bool.

(** [str.isspace] for one character: the code points CPython lists in
    [_PyUnicode_IsWhitespace]. *)
Definition isspace (c : char) : bool :=
  (in_range 9 13 c || in_range 28 32 c || N.eqb c 133 || N.eqb c 160
   || N.eqb c 5760 || in_range 8192 8202 c || N.eqb c 8232 || N.eqb c 8233
   || N.eqb c 8239 || N.eqb c 8287 || N.eqb c 12288)%bool.

Fixpoint drop_while (p : char -> bool) (s : str) : str :=
  match s with
  | [] => []
  | c :: s' => if p c then drop_while p s' else s
  end.

Definition lstrip_with (p : char -> bool) (s : str) : str := drop_while p s.
Definition rstrip_with (p : char -> bool) (s : str) : str :=
  rev (drop_while p (rev s)).

(** [s.strip()] and [s.strip(chars)]. *)
Definition strip (s : str) : str := rstrip_with isspace (lstrip_with isspace s).
Definition strip_chars (chars : str) (s : str) : str :=
  let p c := existsb (N.eqb c) chars in
  rstrip_with p (lstrip_with p s).

(** [sep.join(parts)]. *)
Fixpoint join (sep : str) (parts : list str) : str :=
  match parts with
  | [] => []
  | [p] => p
  | p :: rest => p ++ sep ++ join sep rest
  end.

(** [str(n)] for an [int]. *)
Definition str_of_Z (z : Z) : str := lit (NilZero.string_of_int (Z.to_int z)).

(** Truth value of a string: non-empty. *)
Definition nonempty (s : str) : bool :=
  match s with [] => false | _ => true end.

Definition LF : str := [10%N].

End Text.
Import Text.

(* ================================================================== *)
(** ** Exceptions and results *)

Inductive exn : Type :=
| ValueError (msg : str)
| InvalidOperation            (* decimal.InvalidOperation *)
| DecimalOverflow             (* decimal.Overflow *)
| OverflowError (msg : str)
| SystemExit (code : Z)
| PyodbcError (msg : str)
| RequestException (msg : str)
| UnicodeEncodeError
| OtherException (msg : str).

Inductive result (A : Type) : Type :=
| Ok (a : A)
| Raise (e : exn).
Arguments Ok {A} a.
Arguments Raise {A} e.

Definition rbind {A B} (r : result A) (k : A -> result B) : result B :=
  match r with
  | Ok a => k a
  | Raise e => Raise e
  end.

Declare Scope result_scope.
Delimit Scope result_scope with result.
Notation "x <- c ;; k" := (rbind c (fun x => k))
  (at level 61, c at next level, right associativity) : result_scope.

(* ================================================================== *)
(** ** decimal.Decimal with the default context *)

Module Dec.

Inductive Decimal : Type :=
| Fin (coeff : Z) (exp : Z)       (* coeff * 10^exp *)
| Inf (negative : bool)
| NaN (signaling : bool).

Definition prec : Z := 28.
Definition Emax : Z := 999999.
Definition Emin : Z := -999999.
Definition Etiny : Z := Emin - prec + 1.
Definition Etop : Z := Emax - prec + 1.

(** Number of decimal digits of a non-negative integer ([len(self._int)]);
    the fuel is the bit length, which is never smaller. *)
Fixpoint ndigits_aux (fuel : nat) (n : Z) : Z :=
  match fuel with
  | O => 1
  | S f => if n <? 10 then 1 else 1 + ndigits_aux f (n / 10)
  end.

Definition ndigits (n : Z) : Z := ndigits_aux (S (Z.to_nat (Z.log2 n))) n.

(** [Decimal._fix]: round a finite number to the context.  The rounding is
    ROUND_HALF_EVEN; an exponent above the range raises [decimal.Overflow],
    one below it is clamped to [Etiny] (subnormal). *)
Definition fix_ (m e : Z) : result Decimal :=
  if m =? 0 then Ok (Fin 0 (Z.min (Z.max e Etiny) Emax))
  else
    let a := Z.abs m in
    let len := ndigits a in
    let exp_min0 := len + e - prec in
    if exp_min0 >? Etop then Raise DecimalOverflow
    else
      let exp_min := Z.max exp_min0 Etiny in
      if e <? exp_min then
        let digits := len + e - exp_min in
        let '(a1, e1) := if digits <? 0 then (1, exp_min - 1) else (a, e) in
        let p := 10 ^ (exp_min - e1) in
        let q := a1 / p in
        let r := a1 mod p in
        let up := ((2 * r >? p) || ((2 * r =? p) && Z.odd q))%bool in
        let c := if up then q + 1 else q in
        let '(c1, exp1) :=
          if ndigits c >? prec then (c / 10, exp_min + 1) else (c, exp_min) in
        if exp1 >? Etop then Raise DecimalOverflow
        else Ok (Fin (Z.sgn m * c1) exp1)
      else Ok (Fin m e).

(** [a + b] ([Decimal.__add__]). *)
Definition add (a b : Decimal) : result Decimal :=
  match a, b with
  | NaN true, _ | _, NaN true => Raise InvalidOperation
  | NaN false, _ | _, NaN false => Ok (NaN false)
  | Inf s1, Inf s2 => if Bool.eqb s1 s2 then Ok (Inf s1) else Raise InvalidOperation
  | Inf s, Fin _ _ | Fin _ _, Inf s => Ok (Inf s)
  | Fin m1 e1, Fin m2 e2 =>
      let e := Z.min e1 e2 in
      fix_ (m1 * 10 ^ (e1 - e) + m2 * 10 ^ (e2 - e)) e
  end.

(** [a * b] ([Decimal.__mul__]). *)
Definition mul (a b : Decimal) : result Decimal :=
  match a, b with
  | NaN true, _ | _, NaN true => Raise InvalidOperation
  | NaN false, _ | _, NaN false => Ok (NaN false)
  | Inf s1, Inf s2 => Ok (Inf (xorb s1 s2))
  | Inf s, Fin m _ | Fin m _, Inf s =>
      if m =? 0 then Raise InvalidOperation else Ok (Inf (xorb s (m <? 0)))
  | Fin m1 e1, Fin m2 e2 => fix_ (m1 * m2) (e1 + e2)
  end.

(** [d.to_integral_value(rounding=ROUND_HALF_UP)]: no context rounding. *)
Definition to_integral_value_half_up (d : Decimal) : result Decimal :=
  match d with
  | NaN true => Raise InvalidOperation
  | NaN false => Ok (NaN false)
  | Inf s => Ok (Inf s)
  | Fin m e =>
      if e >=? 0 then Ok (Fin m e)
      else
        let p := 10 ^ (- e) in
        let q := Z.abs m / p in
        let r := Z.abs m mod p in
        let c := if 2 * r >=? p then q + 1 else q in
        Ok (Fin (Z.sgn m * c) 0)
  end.

(** [int(d)] ([Decimal.__int__]): truncation of a finite number. *)
Definition to_int (d : Decimal) : result Z :=
  match d with
  | NaN _ => Raise (ValueError (lit "cannot convert NaN to integer"))
  | Inf _ => Raise (OverflowError (lit "cannot convert Infinity to integer"))
  | Fin m e =>
      if e >=? 0 then Ok (m * 10 ^ e)
      else Ok (Z.sgn m * (Z.abs m / 10 ^ (- e)))
  end.

Definition of_Z (z : Z) : Decimal := Fin z 0.

(** *** [Decimal(text)]: the numeric-string syntax, for ASCII digits.
    Surrounding whitespace is stripped and underscores are removed; letters
    compare case-insensitively.  (CPython also accepts non-ASCII decimal
    digits; such strings are rejected here.) *)

Definition is_ascii_digit (c : char) : bool := in_range 48 57 c.

Fixpoint span (p : char -> bool) (s : str) : str * str :=
  match s with
  | [] => ([], [])
  | c :: s' =>
      if p c then let '(a, b) := span p s' in (c :: a, b) else ([], s)
  end.

Definition digits_to_Z (ds : str) : Z :=
  fold_left (fun acc c => 10 * acc + (Z.of_N c - 48)) ds 0.

Definition ascii_lower (c : char) : char :=
  if in_range 65 90 c then (c + 32)%N else c.

Definition parse_exponent (s : str) : option Z :=
  let '(sg, r) :=
    match s with
    | 43%N :: r => (1, r)
    | 45%N :: r => (-1, r)
    | _ => (1, s)
    end in
  let '(ds, rest) := span is_ascii_digit r in
  match ds, rest with
  | _ :: _, [] => Some (sg * digits_to_Z ds)
  | _, _ => None
  end.

Definition parse_finite (sg : Z) (s : str) : option Decimal :=
  let '(ip, r1) := span is_ascii_digit s in
  let '(fp, r2) :=
    match r1 with
    | 46%N :: r => span is_ascii_digit r
    | _ => ([], r1)
    end in
  if (nonempty ip || nonempty fp)%bool then
    let coeff := sg * digits_to_Z (ip ++ fp) in
    let fl := Z.of_nat (List.length fp) in
    match r2 with
    | [] => Some (Fin coeff (- fl))
    | c :: r3 =>
        if N.eqb (ascii_lower c) 101 then
          match parse_exponent r3 with
          | Some x => Some (Fin coeff (x - fl))
          | None => None
          end
        else None
    end
  else None.

Definition all_digits (s : str) : bool := forallb is_ascii_digit s.

Definition parse_special (neg : bool) (s : str) : option Decimal :=
  let l := map ascii_lower s in
  if (str_eqb l (lit "inf") || str_eqb l (lit "infinity"))%bool then Some (Inf neg)
  else if (str_eqb (firstn 3 l) (lit "nan") && all_digits (skipn 3 l))%bool
       then Some (NaN false)
  else if (str_eqb (firstn 4 l) (lit "snan") && all_digits (skipn 4 l))%bool
       then Some (NaN true)
  else None.

Definition of_str (text : str) : option Decimal :=
  let s := filter (fun c => negb (N.eqb c 95)) (strip text) in
  let '(neg, body) :=
    match s with
    | 43%N :: r => (false, r)
    | 45%N :: r => (true, r)
    | _ => (false, s)
    end in
  match parse_finite (if neg then -1 else 1) body with
  | Some d => Some d
  | None => parse_special neg body
  end.

End Dec.
Import Dec.

(* ================================================================== *)
(** ** Database rows and [aggregate_order_values] *)

Inductive pyval : Type :=
| PNone
| PInt (z : Z)
| PStr (s : str).

(** [str(value)] for a cell that is not [None]. *)
Definition py_str (v : pyval) : str :=
  match v with
  | PNone => lit "None"
  | PInt z => str_of_Z z
  | PStr s => s
  end.

(** A row is a [dict] from lower-cased column names to cells, kept as an
    association list read at the first entry of a key. *)
Definition row := list (str * pyval).

Fixpoint row_get (key : str) (r : row) : option pyval :=
  match r with
  | [] => None
  | (k, v) :: r' => if str_eqb k key then Some v else row_get key r'
  end.

(** [Decimal(str(value))], an unparsable text becoming a [ValueError]. *)
Definition ensure_decimal (value : pyval) (field_name : str) : result Decimal :=
  match of_str (py_str value) with
  | Some d => Ok d
  | None =>
      Raise (ValueError (lit "Ungueltiger Dezimalwert fuer " ++ field_name
                         ++ lit ": " ++ py_str value))
  end.

(** The inner loop over [field_names]: the value of the first column name
    present in the row (which may be [None]), [None] when none is. *)
Fixpoint first_present (field_names : list str) (r : row) : pyval :=
  match field_names with
  | [] => PNone
  | key :: rest =>
      match row_get key r with
      | Some v => v
      | None => first_present rest r
      end
  end.

(** The value of one row that enters the sum: a NULL becomes 10. *)
Definition field_value (field_names : list str) (r : row) : pyval :=
  match first_present field_names r with
  | PNone => PInt 10
  | v => v
  end.

Local Open Scope result_scope.

Fixpoint sum_loop (field_names : list str) (field_label : str)
         (rows : list row) (total : Decimal) : result Decimal :=
  match rows with
  | [] => Ok total
  | r :: rest =>
      decimal_value <- ensure_decimal (field_value field_names r) field_label ;;
      total' <- add total decimal_value ;;
      sum_loop field_names field_label rest total'
  end.

Definition sum_field (rows : list row) (field_names : list str)
           (field_label : str) (multiplier : Z) : result Z :=
  total <- sum_loop field_names field_label rows (Fin 0 0) ;;
  scaled <- mul total (of_Z multiplier) ;;
  rounded <- to_integral_value_half_up scaled ;;
  to_int rounded.

(** The loop collecting the CODE1 values. *)
Fixpoint collect_codes (rows : list row) (code_values : list str) : list str :=
  match rows with
  | [] => code_values
  | r :: rest =>
      match row_get (lit "code1") r with
      | Some PNone | None => collect_codes rest code_values
      | Some v =>
          let code_value := strip (py_str v) in
          if nonempty code_value
          then collect_codes rest (code_values ++ [code_value])
          else collect_codes rest code_values
      end
  end.

Record aggregated : Type := {
  ids_order_units : list str;
  weight_gram : Z;
  width_cm : Z;
  height_cm : Z;
  length_cm : Z
}.

Definition aggregate_order_values (rows : list row) (fallback_order_number : str)
  : result aggregated :=
  match rows with
  | [] => Raise (ValueError (lit "Keine Auftragsdaten vorhanden"))
  | _ =>
      let code_values := collect_codes rows [] in
      match code_values with
      | [] => Raise (ValueError (lit "Keine CODE1-Werte in den Auftragsdaten gefunden"))
      | _ =>
          w <- sum_field rows [lit "weight_gram"; lit "bgewicht"] (lit "weight_gram") 1000 ;;
          b <- sum_field rows [lit "width_cm"; lit "bbreite"] (lit "width_cm") 10 ;;
          h <- sum_field rows [lit "height_cm"; lit "bhoehe"] (lit "height_cm") 10 ;;
          l <- sum_field rows [lit "length_cm"; lit "btiefe"] (lit "length_cm") 10 ;;
          Ok {| ids_order_units := code_values; weight_gram := w;
                width_cm := b; height_cm := h; length_cm := l |}
      end
  end.

Local Close Scope result_scope.

(* ================================================================== *)
(** ** SHA-256, HMAC and [sign_request] *)

Module Sha256.

Definition byte_list := list Z.     (* each element in 0..255 *)

Definition w32 (x : Z) : Z := x mod 2 ^ 32.
Definition add32 (a b : Z) : Z := w32 (a + b).
Definition not32 (x : Z) : Z := Z.lxor x 0xffffffff.
Definition rotr (n x : Z) : Z := Z.lor (Z.shiftr x n) (w32 (Z.shiftl x (32 - n))).
Definition shr (n x : Z) : Z := Z.shiftr x n.

Definition Ch (x y z : Z) : Z := Z.lxor (Z.land x y) (Z.land (not32 x) z).
Definition Maj (x y z : Z) : Z :=
  Z.lxor (Z.lxor (Z.land x y) (Z.land x z)) (Z.land y z).
Definition Sigma0 (x : Z) : Z := Z.lxor (Z.lxor (rotr 2 x) (rotr 13 x)) (rotr 22 x).
Definition Sigma1 (x : Z) : Z := Z.lxor (Z.lxor (rotr 6 x) (rotr 11 x)) (rotr 25 x).
Definition sigma0 (x : Z) : Z := Z.lxor (Z.lxor (rotr 7 x) (rotr 18 x)) (shr 3 x).
Definition sigma1 (x : Z) : Z := Z.lxor (Z.lxor (rotr 17 x) (rotr 19 x)) (shr 10 x).

(** The constants, as FIPS 180-4 defines them: the first 32 bits of the
    fractional parts of the cube roots of the first 64 primes, and of the
    square roots of the first 8 primes for the initial hash value. *)
Definition first_primes : list Z :=
  [2; 3; 5; 7; 11; 13; 17; 19; 23; 29; 31; 37; 41; 43; 47; 53; 59; 61; 67; 71;
   73; 79; 83; 89; 97; 101; 103; 107; 109; 113; 127; 131; 137; 139; 149; 151;
   157; 163; 167; 173; 179; 181; 191; 193; 197; 199; 211; 223; 227; 229; 233;
   239; 241; 251; 257; 263; 269; 271; 277; 281; 283; 293; 307; 311].

(** The integer cube root, found bit by bit from the top. *)
Fixpoint cube_root_bits (bits : nat) (x n : Z) : Z :=
  match bits with
  | O => x
  | S b =>
      let y := x + 2 ^ Z.of_nat b in
      if y * y * y <=? n then cube_root_bits b y n else cube_root_bits b x n
  end.

Definition cube_root_fraction (p : Z) : Z := w32 (cube_root_bits 40 0 (p * 2 ^ 96)).
Definition square_root_fraction (p : Z) : Z := w32 (Z.sqrt (p * 2 ^ 64)).

Definition K : list Z := Eval vm_compute in map cube_root_fraction first_primes.

Definition H0 : list Z :=
  Eval vm_compute in map square_root_fraction (firstn 8 first_primes).

(** Big-endian bytes of a word, and back. *)
Fixpoint be_bytes (n : nat) (x : Z) : byte_list :=
  match n with
  | O => []
  | S n' => (Z.shiftr x (8 * Z.of_nat n')) mod 256 :: be_bytes n' x
  end.

Definition be_word (bs : byte_list) : Z :=
  fold_left (fun acc b => acc * 256 + b) bs 0.

(** Padding: 0x80, zeros up to 56 mod 64, the bit length on 8 bytes. *)
Definition pad (msg : byte_list) : byte_list :=
  let l := Z.of_nat (List.length msg) in
  let zeros := (55 - l) mod 64 in
  msg ++ [0x80] ++ repeat 0 (Z.to_nat zeros) ++ be_bytes 8 (8 * l).

Fixpoint chunks (fuel : nat) (size : nat) (bs : byte_list) : list byte_list :=
  match fuel with
  | O => []
  | S f =>
      match bs with
      | [] => []
      | _ => firstn size bs :: chunks f size (skipn size bs)
      end
  end.

Definition blocks (bs : byte_list) : list byte_list :=
  chunks (S (List.length bs)) 64 bs.

Definition block_words (block : byte_list) : list Z :=
  map be_word (chunks 16 4 block).

(** The message schedule: 48 more words after the 16 of the block. *)
Fixpoint extend (n : nat) (w : list Z) : list Z :=
  match n with
  | O => w
  | S n' =>
      let i := List.length w in
      let at_ k := nth (i - k) w 0 in
      extend n' (w ++ [add32 (add32 (sigma1 (at_ 2%nat)) (at_ 7%nat))
                             (add32 (sigma0 (at_ 15%nat)) (at_ 16%nat))])
  end.

Definition schedule (block : byte_list) : list Z := extend 48 (block_words block).

Record regs : Type := { ra : Z; rb : Z; rc : Z; rd : Z; re : Z; rf : Z; rg : Z; rh : Z }.

Definition round (s : regs) (kw : Z * Z) : regs :=
  let '(k, w) := kw in
  let t1 := add32 (add32 (add32 (rh s) (Sigma1 (re s))) (add32 (Ch (re s) (rf s) (rg s)) k)) w in
  let t2 := add32 (Sigma0 (ra s)) (Maj (ra s) (rb s) (rc s)) in
  {| ra := add32 t1 t2; rb := ra s; rc := rb s; rd := rc s;
     re := add32 (rd s) t1; rf := re s; rg := rf s; rh := rg s |}.

Definition regs_of (h : list Z) : regs :=
  {| ra := nth 0 h 0; rb := nth 1 h 0; rc := nth 2 h 0; rd := nth 3 h 0;
     re := nth 4 h 0; rf := nth 5 h 0; rg := nth 6 h 0; rh := nth 7 h 0 |}.

Definition regs_list (s : regs) : list Z :=
  [ra s; rb s; rc s; rd s; re s; rf s; rg s; rh s].

Definition compress (h : list Z) (block : byte_list) : list Z :=
  let s := fold_left round (combine K (schedule block)) (regs_of h) in
  regs_list
    {| ra := add32 (nth 0 h 0) (ra s); rb := add32 (nth 1 h 0) (rb s);
       rc := add32 (nth 2 h 0) (rc s); rd := add32 (nth 3 h 0) (rd s);
       re := add32 (nth 4 h 0) (re s); rf := add32 (nth 5 h 0) (rf s);
       rg := add32 (nth 6 h 0) (rg s); rh := add32 (nth 7 h 0) (rh s) |}.

(** [hashlib.sha256(msg).digest()]: 32 bytes. *)
Definition sha256 (msg : byte_list) : byte_list :=
  flat_map (be_bytes 4) (fold_left compress (blocks (pad msg)) H0).

(** [hmac.new(key, msg, hashlib.sha256).digest()] (RFC 2104, block size 64). *)
Definition hmac_sha256 (key msg : byte_list) : byte_list :=
  let k0 := if (64 <? Z.of_nat (List.length key)) then sha256 key else key in
  let k := k0 ++ repeat 0 (64 - List.length k0) in
  let ipad := map (fun b => Z.lxor b 0x36) k in
  let opad := map (fun b => Z.lxor b 0x5c) k in
  sha256 (opad ++ sha256 (ipad ++ msg)).

Definition hex_digit (d : Z) : char :=
  if d <? 10 then Z.to_N (48 + d) else Z.to_N (97 + (d - 10)).

(** [.hexdigest()]: two lower-case hexadecimal characters per byte. *)
Definition hexdigest (bs : byte_list) : str :=
  flat_map (fun b => [hex_digit (b / 16); hex_digit (b mod 16)]) bs.

End Sha256.
Import Sha256.

(** [s.encode('utf-8')]: [None] for a string that cannot be encoded (a lone
    surrogate), where Python raises [UnicodeEncodeError]. *)
Definition utf8_char (c : char) : option byte_list :=
  let z := Z.of_N c in
  if z <? 0x80 then Some [z]
  else if z <? 0x800 then
    Some [Z.lor 0xC0 (Z.shiftr z 6); Z.lor 0x80 (Z.land z 0x3F)]
  else if z <? 0x10000 then
    if ((0xD800 <=? z) && (z <=? 0xDFFF))%bool then None
    else Some [Z.lor 0xE0 (Z.shiftr z 12);
               Z.lor 0x80 (Z.land (Z.shiftr z 6) 0x3F);
               Z.lor 0x80 (Z.land z 0x3F)]
  else if z <? 0x110000 then
    Some [Z.lor 0xF0 (Z.shiftr z 18);
          Z.lor 0x80 (Z.land (Z.shiftr z 12) 0x3F);
          Z.lor 0x80 (Z.land (Z.shiftr z 6) 0x3F);
          Z.lor 0x80 (Z.land z 0x3F)]
  else None.

Fixpoint encode_utf8 (s : str) : option byte_list :=
  match s with
  | [] => Some []
  | c :: rest =>
      match utf8_char c, encode_utf8 rest with
      | Some b, Some bs => Some (b ++ bs)
      | _, _ => None
      end
  end.

Definition encode (s : str) : result byte_list :=
  match encode_utf8 s with
  | Some bs => Ok bs
  | None => Raise UnicodeEncodeError
  end.

Local Open Scope result_scope.

Definition sign_request (method uri body timestamp secret_key : str) : result str :=
  let message := join LF [method; uri; body; timestamp] in
  key_bytes <- encode secret_key ;;
  message_bytes <- encode message ;;
  Ok (hexdigest (hmac_sha256 key_bytes message_bytes)).

Local Close Scope result_scope.

(* ================================================================== *)
(** ** JSON values and [find_download_url] *)

Inductive json : Type :=
| JNull
| JBool (b : bool)
| JInt (z : Z)
| JFloat (f : spec_float)
| JStr (s : str)
| JList (items : list json)
| JDict (entries : list (str * json)).   (* insertion order, as [dict] keeps it *)

(** Truth value of a Python object decoded from JSON. *)
Definition truthy (j : json) : bool :=
  match j with
  | JNull => false
  | JBool b => b
  | JInt z => negb (z =? 0)
  | JFloat (S754_zero _) => false
  | JFloat _ => true
  | JStr s => nonempty s
  | JList [] => false
  | JList _ => true
  | JDict [] => false
  | JDict _ => true
  end.

(** Truth value of a result that may be [None]. *)
Definition truthy_opt (r : option json) : bool :=
  match r with
  | Some v => truthy v
  | None => false
  end.

(** [d.get(key)]. *)
Fixpoint dict_get {A : Type} (key : str) (entries : list (str * A)) : option A :=
  match entries with
  | [] => None
  | (k, v) :: rest => if str_eqb k key then Some v else dict_get key rest
  end.

Definition download_url_key : str := lit "download_url".

Fixpoint find_download_url (payload : json) : option json :=
  match payload with
  | JDict entries =>
      let own := dict_get download_url_key entries in
      if truthy_opt own then own
      else
        (fix values (es : list (str * json)) : option json :=
           match es with
           | [] => None
           | (_, value) :: rest =>
               let result := find_download_url value in
               if truthy_opt result then result else values rest
           end) entries
  | JList items =>
      (fix elements (l : list json) : option json :=
         match l with
         | [] => None
         | item :: rest =>
             let result := find_download_url item in
             if truthy_opt result then result else elements rest
         end) items
  | _ => None
  end.

(** The search order as a list: every value stored under the key
    [download_url], a mapping's own entry before the occurrences inside its
    values (taken in iteration order), a sequence's elements in index
    order. *)
Fixpoint occurrences (j : json) : list json :=
  match j with
  | JDict entries =>
      match dict_get download_url_key entries with
      | Some v => [v]
      | None => []
      end
      ++ (fix inside (es : list (str * json)) : list json :=
            match es with
            | [] => []
            | (_, value) :: rest => occurrences value ++ inside rest
            end) entries
  | JList items =>
      (fix inside (l : list json) : list json :=
         match l with
         | [] => []
         | item :: rest => occurrences item ++ inside rest
         end) items
  | _ => []
  end.

(* ================================================================== *)
(** ** Character classes and [sanitize_filename_segment]

    The Unicode character database is modelled on a repertoire: the code
    points up to U+00FF (Basic Latin and Latin-1 Supplement), U+0130 (capital
    I with dot above) and U+0307 (combining dot above).  Outside of it the
    tables below answer "not alphanumeric" and "lower-cases to itself". *)

Module Unicode.

Definition modelled (c : char) : bool := (N.leb c 255 || N.eqb c 304 || N.eqb c 775)%bool.

Definition latin1 (c : char) : bool := N.leb c 255.

(** [c.isalnum()]: letters, decimal digits, other digits and numerics. *)
Definition isalnum (c : char) : bool :=
  (in_range 48 57 c || in_range 65 90 c || in_range 97 122 c
   || N.eqb c 170 || N.eqb c 178 || N.eqb c 179 || N.eqb c 181
   || N.eqb c 185 || N.eqb c 186 || in_range 188 190 c
   || in_range 192 214 c || in_range 216 246 c || in_range 248 255 c
   || N.eqb c 304)%bool.


(** The lower-case mapping of one character (full case mapping: U+0130
    becomes the two code points U+0069 U+0307). *)
Definition lower_char (c : char) : str :=
  if (in_range 65 90 c || in_range 192 214 c || in_range 216 222 c)%bool
  then [(c + 32)%N]
  else if N.eqb c 304 then [105%N; 775%N]
  else [c].

(** [s.lower()]. *)
Definition lower (s : str) : str := flat_map lower_char s.

(** Regular-expression classes for [str] patterns: [\d] is a decimal digit,
    [\w] an alphanumeric character or the underscore. *)
Definition re_decimal (c : char) : bool := in_range 48 57 c.
Definition re_word (c : char) : bool := (isalnum c || N.eqb c 95)%bool.

End Unicode.

Definition placeholder : str := lit "unbekannt".

Definition keep_char (ch : char) : bool :=
  (Unicode.isalnum ch || existsb (N.eqb ch) [45%N; 95%N])%bool.

Definition sanitize_filename_segment (value : str) : str :=
  let cleaned := strip_chars (lit "-_") (filter keep_char value) in
  if nonempty cleaned then Unicode.lower cleaned else placeholder.

(* ================================================================== *)
(** ** The database helpers: rows as dicts and the connection string *)

(** [d[key] = value] on a dict in insertion order: the value of a key that
    is there is replaced in place. *)
Fixpoint dict_set (key : str) (value : pyval) (d : row) : row :=
  match d with
  | [] => [(key, value)]
  | (k, v) :: d' =>
      if str_eqb k key then (k, value) :: d' else (k, v) :: dict_set key value d'
  end.

(** [{columns[idx]: row[idx] for idx in range(len(columns))}], from the
    entries already in [acc]; no result stands for the [IndexError] of a row
    with fewer cells than there are columns. *)
Fixpoint row_dict (columns : list str) (cells : list pyval) (acc : row) : option row :=
  match columns, cells with
  | [], _ => Some acc
  | c :: columns', v :: cells' => row_dict columns' cells' (dict_set c v acc)
  | _ :: _, [] => None
  end.

(** The loop over the fetched rows. *)
Fixpoint row_dicts (columns : list str) (rows : list (list pyval)) : option (list row) :=
  match rows with
  | [] => Some []
  | cells :: rest =>
      match row_dict columns cells [], row_dicts columns rest with
      | Some d, Some ds => Some (d :: ds)
      | _, _ => None
      end
  end.

(** What [fetch_order_rows] makes of the column names of the cursor
    description and the fetched rows. *)
Definition rows_of_cursor (description : list str) (rows : list (list pyval))
  : option (list row) :=
  match rows with
  | [] => Some []
  | _ => row_dicts (map Unicode.lower description) rows
  end.


Section ConnectionString.

(** [str(value)] for the configuration values that are no strings. *)
Variable text_of : json -> str.





End ConnectionString.

(* ================================================================== *)
(** ** The regular expression [\b\d{12}\b] and [re.search] *)

Module Re.

Inductive regex : Type :=
| WordBoundary                       (* \b *)
| Digit                              (* \d *)
| Seq (a b : regex)
| Repeat (n : nat) (r : regex).      (* r{n} *)

Section Engine.

Variables (is_decimal is_word : char -> bool).

Definition word_opt (c : option char) : bool :=
  match c with
  | Some x => is_word x
  | None => false
  end.

(** [at_boundary prev rest]: the position between [prev] and the head of
    [rest] separates a word character from a non-word character or from an
    end of the text. *)
Definition at_boundary (prev : option char) (rest : str) : bool :=
  xorb (word_opt prev) (word_opt (hd_error rest)).

(** Matching at one position: [prev] is the character before the position
    and [rest] the text from it; the result is the position after the
    match.  The patterns built from these constructors match in at most one
    way. *)
Fixpoint match_here (r : regex) (prev : option char) (rest : str)
  : option (option char * str) :=
  match r with
  | WordBoundary => if at_boundary prev rest then Some (prev, rest) else None
  | Digit =>
      match rest with
      | c :: rest' => if is_decimal c then Some (Some c, rest') else None
      | [] => None
      end
  | Seq a b =>
      match match_here a prev rest with
      | Some (prev', rest') => match_here b prev' rest'
      | None => None
      end
  | Repeat n a =>
      (fix times (k : nat) (prev : option char) (rest : str) :=
         match k with
         | O => Some (prev, rest)
         | S k' =>
             match match_here a prev rest with
             | Some (prev', rest') => times k' prev' rest'
             | None => None
             end
         end) n prev rest
  end.

(** [re.search(r, text)]: the match at the leftmost position that has one;
    the result is [match.group(0)]. *)
Fixpoint search_from (r : regex) (prev : option char) (text : str) : option str :=
  match match_here r prev text with
  | Some (_, rest) => Some (firstn (List.length text - List.length rest) text)
  | None =>
      match text with
      | [] => None
      | c :: text' => search_from r (Some c) text'
      end
  end.

Definition search (r : regex) (text : str) : option str := search_from r None text.

End Engine.

Definition tracking_pattern : regex := Seq WordBoundary (Seq (Repeat 12 Digit) WordBoundary).

End Re.

(* ================================================================== *)
(** ** Tracking-number extraction (step 14) *)

(** [suffix.lower() == '.pdf' or target_path.suffix.lower() == '.pdf']. *)
Definition is_pdf (suffix target_suffix : str) : bool :=
  (str_eqb (Unicode.lower suffix) (lit ".pdf")
   || str_eqb (Unicode.lower target_suffix) (lit ".pdf"))%bool.

(** The text of one page: [page.extract_text() or '']. *)
Definition page_text (page : option str) : str :=
  match page with
  | Some t => t
  | None => []
  end.

(** [''.join((page.extract_text() or '') for page in pdf_reader.pages)]. *)
Definition pdf_text_of (pages : list (option str)) : str :=
  join [] (map page_text pages).

(** [re.search(r'\b\d{12}\b', pdf_text)]. *)
Definition search_tracking (pdf_text : str) : option str :=
  Re.search Unicode.re_decimal Unicode.re_word Re.tracking_pattern pdf_text.

(* ================================================================== *)
(** ** [json.dumps] of the request data *)

Module Dumps.

Definition hex4 (c : char) : str :=
  let z := Z.of_N c in
  [48%N; 48%N; hex_digit (z / 16); hex_digit (z mod 16)].

(** One character inside a JSON string ([ensure_ascii=False]). *)
Definition escape_char (c : char) : str :=
  if N.eqb c 34 then [92%N; 34%N]
  else if N.eqb c 92 then [92%N; 92%N]
  else if N.eqb c 8 then [92%N; 98%N]
  else if N.eqb c 12 then [92%N; 102%N]
  else if N.eqb c 10 then [92%N; 110%N]
  else if N.eqb c 13 then [92%N; 114%N]
  else if N.eqb c 9 then [92%N; 116%N]
  else if N.ltb c 32 then [92%N; 117%N] ++ hex4 c
  else [c].

Definition quoted (s : str) : str := [34%N] ++ flat_map escape_char s ++ [34%N].

Definition member (key : string) (value : str) : str := quoted (lit key) ++ lit ":" ++ value.
Definition member_sp (key : string) (value : str) : str := quoted (lit key) ++ lit ": " ++ value.

Record json_data : Type := {
  jd_ids_order_units : list str;
  jd_weight_gram : Z;
  jd_width_cm : Z;
  jd_height_cm : Z;
  jd_length_cm : Z
}.

(** [json.dumps(json_data, separators=(',', ':'), ensure_ascii=False)]. *)
Definition dumps_compact (d : json_data) : str :=
  lit "{"
  ++ member "ids_order_units"
       (lit "[" ++ join (lit ",") (map quoted (jd_ids_order_units d)) ++ lit "]")
  ++ lit "," ++ member "carriers" (lit "[" ++ quoted (lit "GLS") ++ lit "]")
  ++ lit "," ++ member "package_measurements"
       (lit "{" ++ member "weight_gram" (str_of_Z (jd_weight_gram d))
        ++ lit "," ++ member "width_cm" (str_of_Z (jd_width_cm d))
        ++ lit "," ++ member "height_cm" (str_of_Z (jd_height_cm d))
        ++ lit "," ++ member "length_cm" (str_of_Z (jd_length_cm d))
        ++ lit "}")
  ++ lit "}".

Definition nl (indent : nat) : str := LF ++ repeat 32%N indent.

Definition array_indent (indent : nat) (items : list str) : str :=
  match items with
  | [] => lit "[]"
  | _ => lit "[" ++ nl (indent + 2)
         ++ join (lit "," ++ nl (indent + 2)) items
         ++ nl indent ++ lit "]"
  end.

(** [json.dumps(json_data, indent=2, ensure_ascii=False)]. *)
Definition dumps_indent2 (d : json_data) : str :=
  lit "{" ++ nl 2
  ++ member_sp "ids_order_units" (array_indent 2 (map quoted (jd_ids_order_units d)))
  ++ lit "," ++ nl 2
  ++ member_sp "carriers" (array_indent 2 [quoted (lit "GLS")])
  ++ lit "," ++ nl 2
  ++ member_sp "package_measurements"
       (lit "{" ++ nl 4 ++ member_sp "weight_gram" (str_of_Z (jd_weight_gram d))
        ++ lit "," ++ nl 4 ++ member_sp "width_cm" (str_of_Z (jd_width_cm d))
        ++ lit "," ++ nl 4 ++ member_sp "height_cm" (str_of_Z (jd_height_cm d))
        ++ lit "," ++ nl 4 ++ member_sp "length_cm" (str_of_Z (jd_length_cm d))
        ++ nl 2 ++ lit "}")
  ++ nl 0 ++ lit "}".

End Dumps.

(* ================================================================== *)
(** ** The main flow

    The database, the network, the file system, the PDF reader and the clock
    are a [world]: what each call answers.  The script's global variables,
    its log and the calls it makes (in order) are the [state]. *)

Module Run.

Record response : Type := {
  status_code : Z;
  http_error : str;            (* the message [raise_for_status] would carry *)
  text : str;                  (* [response.text] *)
  parsed : json + str          (* [response.json()], or the decoder's message *)
}.

Record download_response : Type := {
  dl_status_code : Z;
  dl_http_error : str;
  content : byte_list
}.

Record world : Type := {
  (* command line (already stripped) and config.json *)
  order_number_input : str;
  username_input : str;
  uri : str;
  shop_client_key : str;
  shop_secret_key : str;
  label_path : str;
  (* clock *)
  unix_time : Z;               (* int(time()) *)
  filename_time : str;         (* datetime.now().strftime('%d%m%Y-%H%M%S') *)
  (* database: an answer, or the message of a pyodbc.Error *)
  db_order_query : str -> list row + str;
  db_insert_tracking : str -> str -> unit + str;
  db_insert_carrier : str -> unit + str;
  db_update_memo : str -> str -> unit + str;
  (* network: a response, or the message of a requests.RequestException *)
  http_post : str -> list (str * str) -> str -> response + str;
  http_get : json -> download_response + str;
  (* paths and files *)
  url_suffix : json -> str;    (* Path(urlsplit(url).path).suffix *)
  path_join : str -> str -> str;
  path_suffix : str -> str;
  fs_write : str -> byte_list -> unit + str;
  (* PdfReader: the text of each page, or the message of an exception *)
  pdf_pages : str -> list (option str) + str;
  (* str() of objects whose text a library builds *)
  repr : json -> str;
  exn_text : exn -> str
}.

Inductive event : Type :=
| EvOrderQuery (order_number : str)
| EvPost (uri : str) (headers : list (str * str)) (body : str)
| EvGet (url : json)
| EvWriteFile (path : str) (content : byte_list)
| EvReadPdf (path : str)
| EvInsertTracking (fsrowid tracking_number : str)
| EvInsertCarrier (fsrowid : str)
| EvUpdateMemo (order_number memo_text : str).

Record state : Type := {
  log_messages : list str;
  events : list event;
  order_rows : list row;
  order_number_db : option str;
  fsrowid : option str;
  suffix : option str;
  target_path : option str;
  tracking_number : option str
}.

Definition initial_state : state :=
  {| log_messages := []; events := []; order_rows := []; order_number_db := None;
     fsrowid := None; suffix := None; target_path := None; tracking_number := None |}.

(** *** The state-and-exception monad of the script *)

Definition M (A : Type) : Type := state -> result A * state.

Definition ret {A} (a : A) : M A := fun st => (Ok a, st).
Definition raise {A} (e : exn) : M A := fun st => (Raise e, st).
Definition bind {A B} (c : M A) (k : A -> M B) : M B :=
  fun st =>
    match c st with
    | (Ok a, st') => k a st'
    | (Raise e, st') => (Raise e, st')
    end.
Definition lift {A} (r : result A) : M A := fun st => (r, st).

(** [try: c except <classes> as exc: h exc]. *)
Definition try_except {A} (c : M A) (classes : exn -> bool) (h : exn -> M A) : M A :=
  fun st =>
    match c st with
    | (Raise e, st') => if classes e then h e st' else (Raise e, st')
    | r => r
    end.

Declare Scope run_scope.
Delimit Scope run_scope with run.
Notation "x <- c ;; k" := (bind c (fun x => k))
  (at level 61, c at next level, right associativity) : run_scope.
Notation "c ;; k" := (bind c (fun _ => k))
  (at level 61, right associativity) : run_scope.
Local Open Scope run_scope.

(** [log(message)]: the message joins [log_messages] (console and log file
    are not part of the state). *)
Definition log (message : str) : M unit :=
  fun st =>
    (Ok tt,
     {| log_messages := log_messages st ++ [message]; events := events st;
        order_rows := order_rows st; order_number_db := order_number_db st;
        fsrowid := fsrowid st; suffix := suffix st; target_path := target_path st;
        tracking_number := tracking_number st |}).

Definition emit (ev : event) : M unit :=
  fun st =>
    (Ok tt,
     {| log_messages := log_messages st; events := events st ++ [ev];
        order_rows := order_rows st; order_number_db := order_number_db st;
        fsrowid := fsrowid st; suffix := suffix st; target_path := target_path st;
        tracking_number := tracking_number st |}).

Definition set_order_rows (rows : list row) : M unit :=
  fun st =>
    (Ok tt,
     {| log_messages := log_messages st; events := events st;
        order_rows := rows; order_number_db := order_number_db st;
        fsrowid := fsrowid st; suffix := suffix st; target_path := target_path st;
        tracking_number := tracking_number st |}).

Definition set_order_number_db (v : str) : M unit :=
  fun st =>
    (Ok tt,
     {| log_messages := log_messages st; events := events st;
        order_rows := order_rows st; order_number_db := Some v;
        fsrowid := fsrowid st; suffix := suffix st; target_path := target_path st;
        tracking_number := tracking_number st |}).

Definition set_fsrowid (v : option str) : M unit :=
  fun st =>
    (Ok tt,
     {| log_messages := log_messages st; events := events st;
        order_rows := order_rows st; order_number_db := order_number_db st;
        fsrowid := v; suffix := suffix st; target_path := target_path st;
        tracking_number := tracking_number st |}).

Definition set_paths (sfx path : str) : M unit :=
  fun st =>
    (Ok tt,
     {| log_messages := log_messages st; events := events st;
        order_rows := order_rows st; order_number_db := order_number_db st;
        fsrowid := fsrowid st; suffix := Some sfx; target_path := Some path;
        tracking_number := tracking_number st |}).

Definition set_tracking_number (v : str) : M unit :=
  fun st =>
    (Ok tt,
     {| log_messages := log_messages st; events := events st;
        order_rows := order_rows st; order_number_db := order_number_db st;
        fsrowid := fsrowid st; suffix := suffix st; target_path := target_path st;
        tracking_number := Some v |}).

(** *** Exception classes *)

Definition is_pyodbc_error (e : exn) : bool :=
  match e with PyodbcError _ => true | _ => false end.

Definition is_request_exception (e : exn) : bool :=
  match e with RequestException _ => true | _ => false end.

(** [ValueError] and its subclasses. *)
Definition is_value_error (e : exn) : bool :=
  match e with ValueError _ | UnicodeEncodeError => true | _ => false end.

(** [Exception]: everything but [SystemExit]. *)
Definition is_exception (e : exn) : bool :=
  match e with SystemExit _ => false | _ => true end.

(** [str(exc)]. *)
Definition exn_str (w : world) (e : exn) : str :=
  match e with
  | ValueError msg | OverflowError msg | PyodbcError msg
  | RequestException msg | OtherException msg => msg
  | _ => exn_text w e
  end.

(** *** External calls *)

Definition call {A} (ev : event) (answer : A + str) (error : str -> exn) : M A :=
  emit ev ;;
  match answer with
  | inl a => ret a
  | inr msg => raise (error msg)
  end.

Definition fetch_order_rows (w : world) (order_number : str) : M (list row) :=
  call (EvOrderQuery order_number) (db_order_query w order_number) PyodbcError.

Definition insert_additional_field_value (w : world) (fsrowid value_string : str) : M unit :=
  call (EvInsertTracking fsrowid value_string)
       (db_insert_tracking w fsrowid value_string) PyodbcError.

Definition insert_carrier_field_value (w : world) (fsrowid : str) : M unit :=
  call (EvInsertCarrier fsrowid) (db_insert_carrier w fsrowid) PyodbcError.

Definition update_order_memo (w : world) (order_number memo_text : str) : M unit :=
  call (EvUpdateMemo order_number memo_text)
       (db_update_memo w memo_text order_number) PyodbcError.

Definition requests_post (w : world) (u : str) (headers : list (str * str)) (data : str)
  : M response :=
  call (EvPost u headers data) (http_post w u headers data) RequestException.

Definition requests_get (w : world) (url : json) : M download_response :=
  call (EvGet url) (http_get w url) RequestException.

Definition write_bytes (w : world) (path : str) (data : byte_list) : M unit :=
  call (EvWriteFile path data) (fs_write w path data) OtherException.

Definition read_pdf (w : world) (path : str) : M (list (option str)) :=
  call (EvReadPdf path) (pdf_pages w path) OtherException.

(** [response.raise_for_status()]: an HTTPError for a status from 400 to 599. *)
Definition raises_for_status (status : Z) : bool :=
  ((400 <=? status) && (status <? 600))%bool.

Definition raise_for_status (r : response) : M unit :=
  if raises_for_status (status_code r)
  then raise (RequestException (http_error r)) else ret tt.

Definition dl_raise_for_status (r : download_response) : M unit :=
  if raises_for_status (dl_status_code r)
  then raise (RequestException (dl_http_error r)) else ret tt.

Definition response_json (r : response) : M json :=
  match parsed r with
  | inl j => ret j
  | inr msg => raise (ValueError msg)
  end.

(** *** Steps 3 and 4 *)

(** [next((str(row['belegnr']).strip() for row in order_rows if ...), default)]. *)
Fixpoint next_belegnr (rows : list row) (default : str) : str :=
  match rows with
  | [] => default
  | r :: rest =>
      match row_get (lit "belegnr") r with
      | Some PNone | None => next_belegnr rest default
      | Some v =>
          if nonempty (strip (py_str v)) then strip (py_str v)
          else next_belegnr rest default
      end
  end.

(** The loop that takes the FSROWID of the first row that has one. *)
Fixpoint first_fsrowid (rows : list row) : option str :=
  match rows with
  | [] => None
  | r :: rest =>
      match row_get (lit "fsrowid") r with
      | Some PNone | None => first_fsrowid rest
      | Some v => Some (strip (py_str v))
      end
  end.

(** Truth value of a variable that is [None] or a string. *)
Definition str_truthy (o : option str) : bool :=
  match o with
  | Some s => nonempty s
  | None => false
  end.

(** The string held by a variable that is known not to be [None]. *)
Definition str_value (o : option str) : str :=
  match o with
  | Some s => s
  | None => []
  end.

(** [ids_order_units[0] if ids_order_units else order_number_input]. *)
Definition order_identifier (ids : list str) (default : str) : str :=
  match ids with
  | first :: _ => first
  | [] => default
  end.

(** [f"{download_url}"]. *)
Definition format_value (w : world) (v : json) : str :=
  match v with
  | JStr s => s
  | _ => repr w v
  end.

Definition exit1 {A} : M A := raise (SystemExit 1).

(** *** The body of the [try] block *)

Definition body (w : world) : M unit :=
  (* Schritt 1 *)
  rows <- try_except (fetch_order_rows w (order_number_input w)) is_pyodbc_error
            (fun exc =>
               log (lit "SQL-Fehler beim Abrufen der Auftragsdaten: " ++ exn_str w exc) ;;
               exit1) ;;
  set_order_rows rows ;;
  match rows with
  | [] =>
      log (lit "Keine Daten fuer Auftragsnummer " ++ order_number_input w
           ++ lit " gefunden.") ;;
      exit1
  | _ =>
  (* Schritt 2 *)
  aggregated <- try_except (lift (aggregate_order_values rows (order_number_input w)))
                  is_value_error
                  (fun exc => log (exn_str w exc) ;; exit1) ;;
  (* Schritt 3 *)
  set_order_number_db (next_belegnr rows (order_number_input w)) ;;
  (* Schritt 4 *)
  let fsrowid := first_fsrowid rows in
  set_fsrowid fsrowid ;;
  (if str_truthy fsrowid then ret tt
   else log (lit "Warnung: Keine FSROWID in den Auftragsdaten gefunden.")) ;;
  (* Schritte 5 und 6 *)
  let ids := ids_order_units aggregated in
  let json_data :=
    {| Dumps.jd_ids_order_units := ids;
       Dumps.jd_weight_gram := weight_gram aggregated;
       Dumps.jd_width_cm := width_cm aggregated;
       Dumps.jd_height_cm := height_cm aggregated;
       Dumps.jd_length_cm := length_cm aggregated |} in
  (* Schritt 7 *)
  let json_body := Dumps.dumps_compact json_data in
  let shop_timestamp := str_of_Z (unix_time w) in
  shop_signature <- lift (sign_request (lit "POST") (uri w) json_body shop_timestamp
                                       (shop_secret_key w)) ;;
  (* Schritt 8 *)
  let username_for_filename := sanitize_filename_segment (username_input w) in
  let order_identifier_raw := order_identifier ids (order_number_input w) in
  let order_for_filename := sanitize_filename_segment order_identifier_raw in
  let filename_base :=
    filename_time w ++ lit "-" ++ username_for_filename ++ lit "-GLS-"
    ++ order_for_filename in
  (* Schritt 9 *)
  let headers :=
    [(lit "accept", lit "application/json");
     (lit "Content-Type", lit "application/json");
     (lit "shop-client-key", shop_client_key w);
     (lit "shop-signature", shop_signature);
     (lit "shop-timestamp", shop_timestamp)] in
  (* Schritt 10 *)
  resp <- requests_post w (uri w) headers json_body ;;
  response_json <- try_except (raise_for_status resp ;; response_json resp)
                     (fun e => (is_request_exception e || is_value_error e)%bool)
                     (fun exc =>
                        log (lit "Fehler bei der Anfrage oder beim Parsen der Antwort: "
                             ++ exn_str w exc) ;;
                        log (text resp) ;;
                        exit1) ;;
  (* Schritt 11 *)
  let no_url : M unit :=
    log (lit "Keine Download-URL in der Antwort gefunden:") ;;
    log (text resp) ;;
    exit1 in
  match find_download_url response_json with
  | None => no_url
  | Some download_url =>
  if negb (truthy download_url) then no_url
  else
  log (lit "Download-URL: " ++ format_value w download_url) ;;
  (* Schritt 12 *)
  download_response <-
    try_except (r <- requests_get w download_url ;; dl_raise_for_status r ;; ret r)
      is_request_exception
      (fun exc =>
         log (lit "Download fehlgeschlagen: " ++ exn_str w exc) ;;
         log (lit "Verwendete Request-Daten:") ;;
         log (Dumps.dumps_indent2 json_data) ;;
         exit1) ;;
  (* Schritt 13 *)
  let sfx := url_suffix w download_url in
  let path := path_join w (label_path w) (filename_base ++ sfx) in
  set_paths sfx path ;;
  write_bytes w path (content download_response) ;;
  log (lit "Dokument gespeichert als " ++ path) ;;
  (* Schritt 14 *)
  if is_pdf sfx (path_suffix w path) then
    found <- try_except
               (pages <- read_pdf w path ;;
                ret (search_tracking (pdf_text_of pages)))
               is_exception
               (fun exc =>
                  log (lit "Fehler beim Auslesen der PDF: " ++ exn_str w exc) ;;
                  exit1) ;;
    match found with
    | None =>
        log (lit "Keine 12-stellige Nummer in der PDF gefunden.") ;;
        exit1
    | Some number =>
        set_tracking_number number ;;
        log (lit "Gefundene 12-stellige Nummer: " ++ number) ;;
        (* Schritt 15 *)
        if str_truthy fsrowid then
          try_except
            (insert_additional_field_value w (str_value fsrowid) number ;;
             log (lit "Tracking-Nummer " ++ number
                  ++ lit " erfolgreich in die Datenbank geschrieben.") ;;
             insert_carrier_field_value w (str_value fsrowid) ;;
             log (lit "Carrier-Wert (GLS) erfolgreich in die Datenbank geschrieben."))
            is_pyodbc_error
            (fun exc =>
               log (lit "Fehler beim Schreiben in die Datenbank: " ++ exn_str w exc) ;;
               exit1)
        else
          log (lit "Warnung: Keine FSROWID verfuegbar, Datenbankeintraege uebersprungen.") ;;
          exit1
    end
  else ret tt
  end
  end.

(** *** [try] / [except] / [finally] around the body *)

Inductive outcome : Type :=
| Completed                   (* the body ran to its end *)
| Aborted (code : Z)          (* SystemExit raised by the body, then ignored *)
| Crashed (e : exn).          (* any other exception, logged and re-raised *)

(** The two [except] clauses. *)
Definition handle (w : world) (r : result unit) (st : state) : outcome * state :=
  match r with
  | Ok _ => (Completed, st)
  | Raise (SystemExit code) => (Aborted code, st)
  | Raise exc => (Crashed exc, snd (log (lit "Unerwarteter Fehler: " ++ exn_str w exc) st))
  end.

(** The [finally] clause (step 16). *)
Definition finally_ (w : world) : M unit :=
  fun st =>
    if str_truthy (order_number_db st) then
      let memo_text := join LF (log_messages st) in
      try_except (update_order_memo w (str_value (order_number_db st)) memo_text)
        is_pyodbc_error
        (fun exc => log (lit "Fehler beim Aktualisieren des Memos: " ++ exn_str w exc))
        st
    else (Ok tt, st).

(** The whole script: the outcome decided by the body and the [except]
    clauses, and the state after the [finally] clause. *)
Definition main (w : world) : outcome * state :=
  let '(r, st1) := body w initial_state in
  let '(out, st2) := handle w r st1 in
  (out, snd (finally_ w st2)).

End Run.

(* ================================================================== *)
(** ** Specification-side definitions *)

(** *** Exact decimal arithmetic: coefficient and exponent, no rounding *)

Definition exact := (Z * Z)%type.

Definition exact_add (a b : exact) : exact :=
  let e := Z.min (snd a) (snd b) in
  (fst a * 10 ^ (snd a - e) + fst b * 10 ^ (snd b - e), e).

Definition exact_sum (vs : list exact) : exact := fold_left exact_add vs (0, 0).

Definition exact_scale (k : Z) (a : exact) : exact := (fst a * k, snd a).

(** [n] is the integer nearest to [m * 10^e], a tie going to the one
    farther from zero. *)
Definition rounds_half_away (d : exact) (n : Z) : Prop :=
  if snd d >=? 0 then n = fst d * 10 ^ snd d
  else
    let p := 10 ^ (- snd d) in
    2 * Z.abs (n * p - fst d) <= p
    /\ (2 * Z.abs (n * p - fst d) = p -> Z.abs (fst d) < Z.abs (n * p)).

(** The values of one field over the rows, when all of them convert to
    finite decimals. *)
Fixpoint finite_values (field_names : list str) (field_label : str)
         (rows : list row) : option (list exact) :=
  match rows with
  | [] => Some []
  | r :: rest =>
      match ensure_decimal (field_value field_names r) field_label,
            finite_values field_names field_label rest with
      | Ok (Fin m e), Some vs => Some ((m, e) :: vs)
      | _, _ => None
      end
  end.

(** A number the context holds without rounding: at most 28 digits and an
    exponent inside the range. *)
Definition fits (d : exact) : bool :=
  ((Z.abs (fst d) <? 10 ^ prec) && (Etiny <=? snd d) && (snd d <=? Etop))%bool.

Fixpoint totals_fit (total : exact) (vs : list exact) : bool :=
  match vs with
  | [] => true
  | v :: rest => (fits (exact_add total v) && totals_fit (exact_add total v) rest)%bool
  end.

(** Every running total and the scaled total fit. *)
Definition sum_fits (multiplier : Z) (vs : list exact) : bool :=
  (totals_fit (0, 0) vs && fits (exact_scale multiplier (exact_sum vs)))%bool.

Definition weight_names : list str := [lit "weight_gram"; lit "bgewicht"].
Definition width_names : list str := [lit "width_cm"; lit "bbreite"].
Definition height_names : list str := [lit "height_cm"; lit "bhoehe"].
Definition length_names : list str := [lit "length_cm"; lit "btiefe"].

(** *** Unit identifier codes *)

(** The CODE1 text of a row, when the row has one. *)
Definition code_of (r : row) : option str :=
  match row_get (lit "code1") r with
  | Some PNone | None => None
  | Some v => Some (py_str v)
  end.


(** The codes in row order: present ones, trimmed, blanks dropped. *)
Definition codes_in_order (rows : list row) : list str :=
  filter nonempty
    (map strip
       (flat_map (fun r => match code_of r with Some s => [s] | None => [] end) rows)).

(** What the claim on the measurements says of one field: the aggregated
    number is the rounded, scaled exact sum of the rows' values. *)
Definition measurement (rows : list row) (names : list str) (label : str)
           (multiplier : Z) (n : Z) : Prop :=
  forall vs,
    finite_values names label rows = Some vs ->
    rounds_half_away (exact_scale multiplier (exact_sum vs)) n.

(** The same, for sums that the decimal context holds exactly. *)
Definition measurement_within_context (rows : list row) (names : list str)
           (label : str) (multiplier : Z) (n : Z) : Prop :=
  forall vs,
    finite_values names label rows = Some vs ->
    sum_fits multiplier vs = true ->
    rounds_half_away (exact_scale multiplier (exact_sum vs)) n.

(** All four fields convert ([ensure_decimal] raises for none of them). *)
Definition converts (names : list str) (label : str) (r : row) : bool :=
  match ensure_decimal (field_value names r) label with
  | Ok _ => true
  | Raise _ => false
  end.

Definition numeric_fields_convert (rows : list row) : bool :=
  (forallb (converts weight_names (lit "weight_gram")) rows
   && forallb (converts width_names (lit "width_cm")) rows
   && forallb (converts height_names (lit "height_cm")) rows
   && forallb (converts length_names (lit "length_cm")) rows)%bool.




(** *** Sample rows *)

Definition row_of (code : string) (weight : pyval) : row :=
  [(lit "code1", PStr (lit code)); (lit "bgewicht", weight)].

(** Weights 5 and NULL. *)
Definition rows_5_absent : list row :=
  [row_of "A1" (PStr (lit "5")); row_of "A2" PNone].

(** Weights 2.5 and NULL, codes with surrounding blanks. *)
Definition rows_2_5_absent : list row :=
  [row_of " A1 " (PStr (lit "2.5")); row_of "A2" PNone].

(** One weight with 29 significant digits, just below half a gram. *)
Definition rows_29_digits : list row :=
  [row_of "A1" (PStr (lit "0.00049999999999999999999999999999"))].


(** *** Signature *)

(** A lower-case hexadecimal character. *)
Definition is_lower_hex (c : char) : bool := (in_range 48 57 c || in_range 97 102 c)%bool.

(** The canonical message: four fields, one line feed between neighbours,
    none at the end. *)
Definition canonical_message (method uri body timestamp : str) : str :=
  method ++ LF ++ uri ++ LF ++ body ++ LF ++ timestamp.

(** *** Induction on JSON values *)

Section JsonInduction.

Variable P : json -> Prop.
Hypothesis Hnull : P JNull.
Hypothesis Hbool : forall b, P (JBool b).
Hypothesis Hint : forall z, P (JInt z).
Hypothesis Hfloat : forall f, P (JFloat f).
Hypothesis Hstr : forall s, P (JStr s).
Hypothesis Hlist : forall items, Forall P items -> P (JList items).
Hypothesis Hdict : forall entries, Forall (fun kv => P (snd kv)) entries -> P (JDict entries).

Fixpoint json_nested_ind (j : json) : P j :=
  match j with
  | JNull => Hnull
  | JBool b => Hbool b
  | JInt z => Hint z
  | JFloat f => Hfloat f
  | JStr s => Hstr s
  | JList items =>
      Hlist items
        ((fix all (l : list json) : Forall P l :=
            match l with
            | [] => Forall_nil P
            | x :: rest => Forall_cons x (json_nested_ind x) (all rest)
            end) items)
  | JDict entries =>
      Hdict entries
        ((fix all (l : list (str * json)) : Forall (fun kv => P (snd kv)) l :=
            match l with
            | [] => Forall_nil _
            | kv :: rest => Forall_cons kv (json_nested_ind (snd kv)) (all rest)
            end) entries)
  end.

End JsonInduction.

(** A response with the key at depth 4 and, later in the search order, a
    deeper one. *)
Definition nested_response : json :=
  JDict [(lit "status", JStr (lit "ok"));
         (lit "data",
          JList [JDict [(lit "label",
                         JDict [(lit "download_url", JStr (lit "https://x/first.pdf"))])];
                 JDict [(lit "more",
                         JList [JDict [(lit "deep",
                                        JDict [(lit "download_url",
                                                JStr (lit "https://x/second.pdf"))])]])]])].

(** *** File-name segments *)



(** The code points up to U+00FF. *)
Definition latin1_codes : list char := map N.of_nat (seq 0 256).


(** *** A match of [\b\d{12}\b] *)


Section TrackingMatch.

Variables (is_decimal is_word : char -> bool).


End TrackingMatch.

(** *** The run *)

Definition is_insert (ev : Run.event) : bool :=
  match ev with
  | Run.EvInsertTracking _ _ | Run.EvInsertCarrier _ => true
  | _ => false
  end.

Definition is_memo (ev : Run.event) : bool :=
  match ev with
  | Run.EvUpdateMemo _ _ => true
  | _ => false
  end.

Definition is_read_pdf (ev : Run.event) : bool :=
  match ev with
  | Run.EvReadPdf _ => true
  | _ => false
  end.

Definition is_get (ev : Run.event) : bool :=
  match ev with
  | Run.EvGet _ => true
  | _ => false
  end.

(** A row carries a non-blank row identifier. *)
Definition has_fsrowid (r : row) : bool :=
  match row_get (lit "fsrowid") r with
  | Some PNone | None => false
  | Some v => nonempty (strip (py_str v))
  end.

Definition no_fsrowid_warning : str :=
  lit "Warnung: Keine FSROWID verfuegbar, Datenbankeintraege uebersprungen.".

(** The outcome the [except] clauses give to the result of the body. *)
Definition outcome_of (r : result unit) : Run.outcome :=
  match r with
  | Ok _ => Run.Completed
  | Raise (SystemExit code) => Run.Aborted code
  | Raise exc => Run.Crashed exc
  end.

(** What the second [except] clause logs. *)
Definition crash_note (w : Run.world) (r : result unit) : list str :=
  match r with
  | Ok _ | Raise (SystemExit _) => []
  | Raise exc => [lit "Unerwarteter Fehler: " ++ Run.exn_str w exc]
  end.

(** The memo write of the cleanup phase: one call when the order number is
    a non-empty string, none otherwise; [before] is the state the body
    left, [decided] the state when the cleanup starts. *)
Definition memo_call (w : Run.world) (before decided : Run.state) : list Run.event :=
  if Run.str_truthy (Run.order_number_db before)
  then [Run.EvUpdateMemo (Run.str_value (Run.order_number_db before))
                         (join LF (Run.log_messages decided))]
  else [].

(** What is logged when that write fails. *)
Definition memo_note (w : Run.world) (before decided : Run.state) : list str :=
  if Run.str_truthy (Run.order_number_db before) then
    match Run.db_update_memo w (join LF (Run.log_messages decided))
                             (Run.str_value (Run.order_number_db before)) with
    | inl _ => []
    | inr msg => [lit "Fehler beim Aktualisieren des Memos: " ++ msg]
    end
  else [].

(** The same world with another answer to the memo write. *)
Definition with_memo (w : Run.world) (memo : str -> str -> unit + str) : Run.world :=
  {| Run.order_number_input := Run.order_number_input w;
     Run.username_input := Run.username_input w;
     Run.uri := Run.uri w;
     Run.shop_client_key := Run.shop_client_key w;
     Run.shop_secret_key := Run.shop_secret_key w;
     Run.label_path := Run.label_path w;
     Run.unix_time := Run.unix_time w;
     Run.filename_time := Run.filename_time w;
     Run.db_order_query := Run.db_order_query w;
     Run.db_insert_tracking := Run.db_insert_tracking w;
     Run.db_insert_carrier := Run.db_insert_carrier w;
     Run.db_update_memo := memo;
     Run.http_post := Run.http_post w;
     Run.http_get := Run.http_get w;
     Run.url_suffix := Run.url_suffix w;
     Run.path_join := Run.path_join w;
     Run.path_suffix := Run.path_suffix w;
     Run.fs_write := Run.fs_write w;
     Run.pdf_pages := Run.pdf_pages w;
     Run.repr := Run.repr w;
     Run.exn_text := Run.exn_text w |}.

(** *** Sample worlds *)

Definition sample_url : str := lit "https://cdn.example/labels/4711.pdf".

Definition sample_rows (rowid : pyval) : list row :=
  [[(lit "code1", PStr (lit "A1")); (lit "bgewicht", PStr (lit "2.5"));
    (lit "belegnr", PStr (lit "4711")); (lit "fsrowid", rowid)]].

Definition sample_response (status : Z) : Run.response :=
  {| Run.status_code := status;
     Run.http_error := lit "HTTP error for url";
     Run.text := lit "{" ++ Dumps.quoted (lit "data") ++ lit ":{"
                 ++ Dumps.quoted download_url_key ++ lit ":"
                 ++ Dumps.quoted sample_url ++ lit "}}";
     Run.parsed := inl (JDict [(lit "data", JDict [(download_url_key, JStr sample_url)])]) |}.

(** A world in which every call succeeds; the label is a one-page PDF. *)
Definition sample_world (rowid : pyval) (resp : Run.response) (sfx : str) : Run.world :=
  {| Run.order_number_input := lit "4711";
     Run.username_input := lit "Max Mustermann";
     Run.uri := lit "https://sellerapi.example/v2/shipping-labels";
     Run.shop_client_key := lit "client";
     Run.shop_secret_key := lit "secret";
     Run.label_path := lit "labels";
     Run.unix_time := 1700000000;
     Run.filename_time := lit "14112023-221320";
     Run.db_order_query := fun _ => inl (sample_rows rowid);
     Run.db_insert_tracking := fun _ _ => inl tt;
     Run.db_insert_carrier := fun _ => inl tt;
     Run.db_update_memo := fun _ _ => inl tt;
     Run.http_post := fun _ _ _ => inl resp;
     Run.http_get := fun _ =>
       inl {| Run.dl_status_code := 200; Run.dl_http_error := []; Run.content := [37; 80; 68; 70] |};
     Run.url_suffix := fun _ => sfx;
     Run.path_join := fun dir name => dir ++ lit "/" ++ name;
     Run.path_suffix := fun _ => sfx;
     Run.fs_write := fun _ _ => inl tt;
     Run.pdf_pages := fun _ => inl [Some (lit "GLS Paket ...Ref 123456789012 End..."); None];
     Run.repr := fun _ => lit "<object>";
     Run.exn_text := fun _ => lit "<exception>" |}.

(** Runs of the sample world: everything succeeds and the row has the
    identifier 17; the same without a row identifier; the label request
    answered with status 500; with status 300 and a well-formed body; a label
    that is not a PDF. *)
Definition world_ok : Run.world :=
  sample_world (PInt 17) (sample_response 200) (lit ".pdf").
Definition world_no_rowid : Run.world :=
  sample_world PNone (sample_response 200) (lit ".pdf").
Definition world_status_500 : Run.world :=
  sample_world (PInt 17) (sample_response 500) (lit ".pdf").
Definition world_status_300 : Run.world :=
  sample_world (PInt 17) (sample_response 300) (lit ".pdf").
Definition world_png : Run.world :=
  sample_world (PInt 17) (sample_response 200) (lit ".png").

(** The label request a run made (its second call). *)
Definition post_of (evs : list Run.event) : str * list (str * str) * str :=
  match evs with
  | _ :: Run.EvPost u headers data :: _ => (u, headers, data)
  | _ => ([], [], [])
  end.

(** *** Integers as decimal text *)

(** The value of a digit sequence read from the left, after [acc]. *)
Fixpoint uint_value (d : Decimal.uint) (acc : Z) : Z :=
  match d with
  | Decimal.Nil => acc
  | Decimal.D0 l => uint_value l (10 * acc + 0)
  | Decimal.D1 l => uint_value l (10 * acc + 1)
  | Decimal.D2 l => uint_value l (10 * acc + 2)
  | Decimal.D3 l => uint_value l (10 * acc + 3)
  | Decimal.D4 l => uint_value l (10 * acc + 4)
  | Decimal.D5 l => uint_value l (10 * acc + 5)
  | Decimal.D6 l => uint_value l (10 * acc + 6)
  | Decimal.D7 l => uint_value l (10 * acc + 7)
  | Decimal.D8 l => uint_value l (10 * acc + 8)
  | Decimal.D9 l => uint_value l (10 * acc + 9)
  end.

(** Integer cells read as exact values, and their sum. *)
Definition int_values (zs : list Z) : list exact := map (fun z => (z, 0)) zs.

Definition sum_Z (zs : list Z) : Z := fold_right Z.add 0 zs.


(** *** Sanitized segments *)

Definition hyphen_like (c : char) : bool := existsb (N.eqb c) (lit "-_").

(** The one character a kept Latin-1 character lower-cases to. *)
Definition lower1 (c : char) : char := hd c (Unicode.lower_char c).

(** A kept character lower-cases to one kept Latin-1 character, of the same
    kind with respect to stripping, that lower-casing leaves alone. *)
Definition lower_char_stable (c : char) : bool :=
  (negb (keep_char c)
   || match Unicode.lower_char c with
      | [c'] =>
          keep_char c' && Unicode.latin1 c'
          && Bool.eqb (hyphen_like c') (hyphen_like c)
          && match Unicode.lower_char c' with
             | [c''] => N.eqb c'' c'
             | _ => false
             end
      | _ => false
      end)%bool.

(** The first character of [s], if any, is neither hyphen nor underscore. *)
Definition edge_ok (s : str) : Prop :=
  match s with [] => True | c :: _ => hyphen_like c = false end.

(** *** The signed message *)

Definition no_line_feed (s : str) : bool := forallb (fun c => negb (N.eqb c 10)) s.

(** A Unicode scalar value: a code point up to U+10FFFF that is no
    surrogate. *)
Definition scalar_value (c : char) : bool :=
  ((N.ltb c 0xD800 || N.ltb 0xDFFF c) && N.ltb c 0x110000)%bool.

(** *** Fetched rows *)

(** The cell of the last column named [key], or [found]. *)
Fixpoint last_cell (key : str) (columns : list str) (cells : list pyval)
         (found : option pyval) : option pyval :=
  match columns, cells with
  | c :: columns', v :: cells' =>
      last_cell key columns' cells' (if str_eqb c key then Some v else found)
  | _, _ => found
  end.

(** *** The calls of a run *)

(** The place of a call in the script. *)
Definition rank (ev : Run.event) : nat :=
  match ev with
  | Run.EvOrderQuery _ => 1
  | Run.EvPost _ _ _ => 2
  | Run.EvGet _ => 3
  | Run.EvWriteFile _ _ => 4
  | Run.EvReadPdf _ => 5
  | Run.EvInsertTracking _ _ => 6
  | Run.EvInsertCarrier _ => 7
  | Run.EvUpdateMemo _ _ => 8
  end.

Definition is_write_file (ev : Run.event) : bool :=
  match ev with
  | Run.EvWriteFile _ _ => true
  | _ => false
  end.

Definition is_carrier (ev : Run.event) : bool :=
  match ev with
  | Run.EvInsertCarrier _ => true
  | _ => false
  end.

(** The request data of step 6 and the headers of step 9. *)
Definition request_data (agg : aggregated) : Dumps.json_data :=
  {| Dumps.jd_ids_order_units := ids_order_units agg;
     Dumps.jd_weight_gram := weight_gram agg;
     Dumps.jd_width_cm := width_cm agg;
     Dumps.jd_height_cm := height_cm agg;
     Dumps.jd_length_cm := length_cm agg |}.

Definition request_headers (w : Run.world) (signature : str) : list (str * str) :=
  [(lit "accept", lit "application/json");
   (lit "Content-Type", lit "application/json");
   (lit "shop-client-key", Run.shop_client_key w);
   (lit "shop-signature", signature);
   (lit "shop-timestamp", str_of_Z (Run.unix_time w))].


(** The sample world with other answers from the database and the network. *)
Definition world_with (query : str -> list row + str)
           (post : str -> list (str * str) -> str -> Run.response + str)
           (get : json -> Run.download_response + str)
           (insert_tracking : str -> str -> unit + str)
           (insert_carrier : str -> unit + str) : Run.world :=
  {| Run.order_number_input := Run.order_number_input world_ok;
     Run.username_input := Run.username_input world_ok;
     Run.uri := Run.uri world_ok;
     Run.shop_client_key := Run.shop_client_key world_ok;
     Run.shop_secret_key := Run.shop_secret_key world_ok;
     Run.label_path := Run.label_path world_ok;
     Run.unix_time := Run.unix_time world_ok;
     Run.filename_time := Run.filename_time world_ok;
     Run.db_order_query := query;
     Run.db_insert_tracking := insert_tracking;
     Run.db_insert_carrier := insert_carrier;
     Run.db_update_memo := Run.db_update_memo world_ok;
     Run.http_post := post;
     Run.http_get := get;
     Run.url_suffix := Run.url_suffix world_ok;
     Run.path_join := Run.path_join world_ok;
     Run.path_suffix := Run.path_suffix world_ok;
     Run.fs_write := Run.fs_write world_ok;
     Run.pdf_pages := Run.pdf_pages world_ok;
     Run.repr := Run.repr world_ok;
     Run.exn_text := Run.exn_text world_ok |}.

(** Runs in which the order query, the label request, the download or the
    tracking write fails. *)
Definition world_query_fails : Run.world :=
  world_with (fun _ => inr (lit "08001")) (Run.http_post world_ok) (Run.http_get world_ok)
             (Run.db_insert_tracking world_ok) (Run.db_insert_carrier world_ok).
Definition world_post_fails : Run.world :=
  world_with (Run.db_order_query world_ok) (fun _ _ _ => inr (lit "connection refused"))
             (Run.http_get world_ok) (Run.db_insert_tracking world_ok)
             (Run.db_insert_carrier world_ok).
Definition world_get_fails : Run.world :=
  world_with (Run.db_order_query world_ok) (Run.http_post world_ok)
             (fun _ => inr (lit "timed out"))
             (Run.db_insert_tracking world_ok) (Run.db_insert_carrier world_ok).
Definition world_insert_fails : Run.world :=
  world_with (Run.db_order_query world_ok) (Run.http_post world_ok) (Run.http_get world_ok)
             (fun _ _ => inr (lit "23000")) (Run.db_insert_carrier world_ok).

(** The download a run made (its third call) and the file it wrote (its
    fourth). *)
Definition get_of (evs : list Run.event) : json :=
  match evs with
  | _ :: _ :: Run.EvGet url :: _ => url
  | _ => JNull
  end.




Definition response_without_url : Run.response :=
  {| Run.status_code := 200; Run.http_error := []; Run.text := lit "{}";
     Run.parsed := inl (JDict []) |}.

Definition world_no_url : Run.world :=
  world_with (Run.db_order_query world_ok) (fun _ _ _ => inl response_without_url)
             (Run.http_get world_ok) (Run.db_insert_tracking world_ok)
             (Run.db_insert_carrier world_ok).


(** Sample rows: integer cells, and a weight that is no number. *)
Definition rows_integers : list row :=
  [[(lit "code1", PStr (lit "A1")); (lit "bgewicht", PInt 2)];
   [(lit "code1", PStr (lit "A2"))]].


(** *** Proof automation *)

(** Symbolic execution of the script: case analysis on what the world
    answers, innermost scrutinee first. *)
Ltac innermost t :=
  lazymatch t with
  | context [match ?y with _ => _ end] => innermost y
  | _ => t
  end.

Ltac exec1 :=
  match goal with
  | |- context [match ?x with _ => _ end] =>
      let y := innermost x in destruct y eqn:?
  end.

Ltac exec := repeat (cbn in *; try discriminate; exec1); cbn in *; try discriminate.

Ltac unfold_run :=
  unfold Run.main, Run.body, Run.finally_, Run.handle, Run.fetch_order_rows,
    Run.requests_post, Run.requests_get, Run.write_bytes, Run.read_pdf,
    Run.update_order_memo, Run.insert_additional_field_value,
    Run.insert_carrier_field_value, Run.raise_for_status, Run.dl_raise_for_status,
    Run.response_json, Run.set_order_rows, Run.set_order_number_db, Run.set_fsrowid,
    Run.set_paths, Run.set_tracking_number, Run.exit1, Run.call, Run.try_except,
    Run.bind, Run.ret, Run.raise, Run.lift, Run.log, Run.emit.

(* ================================================================== *)
(** * Properties *)

(** ** Decimal arithmetic *)

Lemma ndigits_aux_le (fuel : nat) :
  forall n k, 1 <= k -> 0 <= n < 10 ^ k -> ndigits_aux fuel n <= k.
Proof.
  induction fuel as [|fuel IH]; intros n k Hk Hn; cbn [ndigits_aux].
  - lia.
  - destruct (Z.ltb_spec n 10) as [Hlt|Hge]; [lia|].
    assert (Hk2 : 2 <= k).
    { destruct (Z.eq_dec k 1) as [->|]; [|lia]. change (10 ^ 1) with 10 in Hn. lia. }
    assert (Hpow : 10 ^ k = 10 * 10 ^ (k - 1)).
    { rewrite <- Z.pow_succ_r by lia. f_equal. lia. }
    assert (Hdiv : 0 <= n / 10 < 10 ^ (k - 1)).
    { split; [apply Z.div_pos; lia|].
      apply Z.div_lt_upper_bound; lia. }
    specialize (IH (n / 10) (k - 1) ltac:(lia) Hdiv). lia.
Qed.

Lemma ndigits_le_prec (a : Z) : 0 <= a < 10 ^ prec -> ndigits a <= prec.
Proof.
  intros H. unfold ndigits. apply ndigits_aux_le; [unfold prec; lia | exact H].
Qed.

(** A number that fits is left alone by the context. *)
Lemma fix_fits (m e : Z) : fits (m, e) = true -> fix_ m e = Ok (Fin m e).
Proof.
  unfold fits; cbn [fst snd]. rewrite !andb_true_iff.
  intros [[Hm He1] He2].
  apply Z.ltb_lt in Hm. apply Z.leb_le in He1. apply Z.leb_le in He2.
  unfold fix_. destruct (Z.eqb_spec m 0) as [->|Hnz].
  - f_equal. f_equal. unfold Etiny, Etop, Emax, Emin, prec in *. lia.
  - pose proof (ndigits_le_prec (Z.abs m) ltac:(lia)) as Hd.
    destruct (Z.gtb_spec (ndigits (Z.abs m) + e - prec) Etop) as [Hgt|_]; [lia|].
    destruct (Z.ltb_spec e (Z.max (ndigits (Z.abs m) + e - prec) Etiny)) as [Hlt|_];
      [lia | reflexivity].
Qed.

Lemma add_fits (a b : exact) :
  fits (exact_add a b) = true ->
  add (Fin (fst a) (snd a)) (Fin (fst b) (snd b))
  = Ok (Fin (fst (exact_add a b)) (snd (exact_add a b))).
Proof.
  intros H. unfold add. apply fix_fits.
  destruct (exact_add a b) eqn:E. unfold exact_add in E.
  injection E as <- <-. exact H.
Qed.

Lemma mul_fits (a : exact) (k : Z) :
  fits (exact_scale k a) = true ->
  mul (Fin (fst a) (snd a)) (of_Z k)
  = Ok (Fin (fst (exact_scale k a)) (snd (exact_scale k a))).
Proof.
  intros H. unfold mul, of_Z. rewrite Z.add_0_r. apply fix_fits.
  destruct a as [m e]. exact H.
Qed.

(** Rounding to an integer and conversion to [int]. *)
Lemma to_integral_then_int (m e : Z) :
  exists n,
    rbind (to_integral_value_half_up (Fin m e)) to_int = Ok n
    /\ rounds_half_away (m, e) n.
Proof.
  unfold rounds_half_away, to_integral_value_half_up; cbn [fst snd].
  destruct (Z.geb_spec e 0) as [He|He]; cbn [rbind to_int].
  - destruct (Z.geb_spec e 0); [|lia]. eexists; split; reflexivity.
  - change (0 >=? 0) with true. cbv iota.
    eexists; split; [rewrite Z.pow_0_r, Z.mul_1_r; reflexivity|].
    assert (Hp : 0 < 10 ^ (- e)) by (apply Z.pow_pos_nonneg; lia).
    set (p := 10 ^ (- e)) in *.
    pose proof (Z.div_mod (Z.abs m) p ltac:(lia)) as Hdm.
    pose proof (Z.mod_pos_bound (Z.abs m) p Hp) as Hr.
    set (q := Z.abs m / p) in *. set (r := Z.abs m mod p) in *.
    assert (Hq : 0 <= q) by (apply Z.div_pos; lia).
    destruct (Z.geb_spec (2 * r) p) as [Hup|Hno];
      destruct (Z.sgn_spec m) as [[Hs ->]|[[Hs ->]|[Hs ->]]]; nia.
Qed.

(** [exact_add] adds the numbers: at any exponent [E] below both operands,
    the coefficients add up. *)
Lemma exact_add_value (a b : exact) (E : Z) :
  E <= snd a -> E <= snd b ->
  fst (exact_add a b) * 10 ^ (snd (exact_add a b) - E)
  = fst a * 10 ^ (snd a - E) + fst b * 10 ^ (snd b - E).
Proof.
  intros Ha Hb. unfold exact_add. cbn [fst snd].
  set (e := Z.min (snd a) (snd b)).
  assert (He : E <= e) by (unfold e; lia).
  assert (Hea : e <= snd a) by (unfold e; lia).
  assert (Heb : e <= snd b) by (unfold e; lia).
  rewrite Z.mul_add_distr_r, <- !Z.mul_assoc, <- !Z.pow_add_r by lia.
  f_equal; f_equal; f_equal; lia.
Qed.

(** The relation determines the integer. *)
Lemma rounds_half_away_unique (d : exact) (n1 n2 : Z) :
  rounds_half_away d n1 -> rounds_half_away d n2 -> n1 = n2.
Proof.
  unfold rounds_half_away. destruct d as [m e]; cbn [fst snd].
  destruct (Z.geb_spec e 0) as [He|He]; [congruence|].
  assert (Hp : 0 < 10 ^ (- e)) by (apply Z.pow_pos_nonneg; lia).
  set (p := 10 ^ (- e)) in *. clearbody p.
  intros [H1 T1] [H2 T2].
  destruct (Z.eq_dec n1 n2) as [|Hne]; [assumption|exfalso].
  assert (Hcase : n1 = n2 + 1 \/ n2 = n1 + 1).
  { assert (Hlt : Z.abs (n1 * p - n2 * p) < 2 * p) by (clear T1 T2; lia).
    replace (n1 * p - n2 * p) with ((n1 - n2) * p) in Hlt by ring.
    rewrite Z.abs_mul, (Z.abs_eq p) in Hlt by lia.
    assert (Z.abs (n1 - n2) < 2) by (apply (Z.mul_lt_mono_pos_r p); lia). lia. }
  destruct Hcase as [-> | ->].
  - replace ((n2 + 1) * p) with (n2 * p + p) in * by ring.
    assert (E2 : 2 * Z.abs (n2 * p - m) = p) by lia.
    assert (E1 : 2 * Z.abs (n2 * p + p - m) = p) by lia.
    specialize (T1 E1). specialize (T2 E2).
    destruct (Z_le_gt_dec 0 n2);
      [assert (0 <= n2 * p) by nia | assert (n2 * p + p <= 0) by nia]; lia.
  - replace ((n1 + 1) * p) with (n1 * p + p) in * by ring.
    assert (E1 : 2 * Z.abs (n1 * p - m) = p) by lia.
    assert (E2 : 2 * Z.abs (n1 * p + p - m) = p) by lia.
    specialize (T1 E1). specialize (T2 E2).
    destruct (Z_le_gt_dec 0 n1);
      [assert (0 <= n1 * p) by nia | assert (n1 * p + p <= 0) by nia]; lia.
Qed.

(** ** The sum of one field *)

Lemma sum_loop_exact (names : list str) (label : str) :
  forall rows vs total,
    finite_values names label rows = Some vs ->
    totals_fit total vs = true ->
    sum_loop names label rows (Fin (fst total) (snd total))
    = Ok (Fin (fst (fold_left exact_add vs total)) (snd (fold_left exact_add vs total))).
Proof.
  induction rows as [|r rows IH]; intros vs total Hv Hfit; simpl in Hv.
  - injection Hv as <-. reflexivity.
  - destruct (ensure_decimal (field_value names r) label) as [[m e| |]|] eqn:Hd;
      try discriminate.
    destruct (finite_values names label rows) as [vs'|] eqn:Hrest; [|discriminate].
    injection Hv as <-. simpl in Hfit. apply andb_true_iff in Hfit as [Hf1 Hf2].
    cbn [sum_loop]. rewrite Hd. cbn [rbind].
    change (Fin m e) with (Fin (fst (m, e)) (snd (m, e))).
    rewrite (add_fits total (m, e) Hf1). cbn [rbind fold_left].
    apply IH; [reflexivity | exact Hf2].
Qed.

Lemma sum_field_exact (rows : list row) (names : list str) (label : str)
      (multiplier : Z) (vs : list exact) :
  finite_values names label rows = Some vs ->
  sum_fits multiplier vs = true ->
  exists n,
    sum_field rows names label multiplier = Ok n
    /\ rounds_half_away (exact_scale multiplier (exact_sum vs)) n.
Proof.
  intros Hv Hfit. apply andb_true_iff in Hfit as [Ht Hs].
  unfold sum_field.
  change (Fin 0 0) with (Fin (fst (0, 0)) (snd (0, 0))).
  rewrite (sum_loop_exact names label rows vs (0, 0) Hv Ht). cbn [rbind].
  fold (exact_sum vs). rewrite (mul_fits _ _ Hs). cbn [rbind].
  destruct (exact_scale multiplier (exact_sum vs)) as [m e].
  exact (to_integral_then_int m e).
Qed.

(** ** [aggregate_order_values] *)

Lemma aggregate_ok_inv (rows : list row) (fb : str) (agg : aggregated) :
  aggregate_order_values rows fb = Ok agg ->
  rows <> []
  /\ ids_order_units agg = collect_codes rows []
  /\ ids_order_units agg <> []
  /\ sum_field rows weight_names (lit "weight_gram") 1000 = Ok (weight_gram agg)
  /\ sum_field rows width_names (lit "width_cm") 10 = Ok (width_cm agg)
  /\ sum_field rows height_names (lit "height_cm") 10 = Ok (height_cm agg)
  /\ sum_field rows length_names (lit "length_cm") 10 = Ok (length_cm agg).
Proof.
  unfold aggregate_order_values.
  destruct rows as [|r rows]; [discriminate|].
  destruct (collect_codes (r :: rows) []) as [|c cs] eqn:Hc; [discriminate|].
  fold weight_names width_names height_names length_names.
  destruct (sum_field (r :: rows) weight_names _ 1000) as [w|] eqn:Hw; [|discriminate].
  destruct (sum_field (r :: rows) width_names _ 10) as [b|] eqn:Hb; [|discriminate].
  destruct (sum_field (r :: rows) height_names _ 10) as [h|] eqn:Hh; [|discriminate].
  destruct (sum_field (r :: rows) length_names _ 10) as [l|] eqn:Hl; [|discriminate].
  cbn [rbind]. intros H. injection H as <-. cbn.
  repeat split; try reflexivity; discriminate.
Qed.

Lemma measurement_of_sum_field (rows : list row) (names : list str) (label : str)
      (multiplier n : Z) :
  sum_field rows names label multiplier = Ok n ->
  measurement_within_context rows names label multiplier n.
Proof.
  intros Hn vs Hv Hfit.
  destruct (sum_field_exact rows names label multiplier vs Hv Hfit) as [n' [Hn' Hr]].
  rewrite Hn in Hn'. injection Hn' as <-. exact Hr.
Qed.

(** A NULL, or a row without any of the candidate columns, enters the sum as
    the decimal 10. *)
Lemma absent_is_10 (names : list str) (label : str) (r : row) :
  first_present names r = PNone ->
  ensure_decimal (field_value names r) label = Ok (Fin 10 0).
Proof.
  intros H. unfold field_value. rewrite H. reflexivity.
Qed.

(** C1 as stated fails: a weight of 29 significant digits is rounded to 28
    by the first addition, to 0.0005, and the aggregate is 1 gram where the
    exact sum, below half a gram, rounds to 0. *)
Lemma C1_exact_sum_counterexample :
  aggregate_order_values rows_29_digits []
  = Ok {| ids_order_units := [lit "A1"]; weight_gram := 1;
          width_cm := 100; height_cm := 100; length_cm := 100 |}
  /\ ~ measurement rows_29_digits weight_names (lit "weight_gram") 1000 1
  /\ measurement rows_29_digits weight_names (lit "weight_gram") 1000 0.
Proof.
  split; [vm_compute; reflexivity|]. split.
  - intros H. specialize (H [(49999999999999999999999999999, -32)] eq_refl).
    vm_compute in H. destruct H as [H _]. apply H. reflexivity.
  - intros vs Hv. vm_compute in Hv. injection Hv as <-.
    vm_compute. split; [discriminate|]. discriminate.
Qed.

(** C1 (amended): when [aggregate_order_values] returns, each measurement is
    the exact decimal sum of its field over the rows (a NULL or missing value
    counting as 10), times 1000 for the weight and times 10 for width, height
    and length, rounded half away from zero, provided the running totals and
    the scaled total fit the 28-digit decimal context; weights 5 and NULL sum
    to 15 and give 15000 grams. *)
Theorem C1_measurements_exact_within_context :
  (forall rows fb agg,
      aggregate_order_values rows fb = Ok agg ->
      measurement_within_context rows weight_names (lit "weight_gram") 1000 (weight_gram agg)
      /\ measurement_within_context rows width_names (lit "width_cm") 10 (width_cm agg)
      /\ measurement_within_context rows height_names (lit "height_cm") 10 (height_cm agg)
      /\ measurement_within_context rows length_names (lit "length_cm") 10 (length_cm agg))
  /\ (forall names label r,
         first_present names r = PNone ->
         ensure_decimal (field_value names r) label = Ok (Fin 10 0))
  /\ (finite_values weight_names (lit "weight_gram") rows_5_absent = Some [(5, 0); (10, 0)]
      /\ exact_sum [(5, 0); (10, 0)] = (15, 0)
      /\ exists agg, aggregate_order_values rows_5_absent [] = Ok agg
                     /\ weight_gram agg = 15000).
Proof.
  split; [|split].
  - intros rows fb agg H.
    destruct (aggregate_ok_inv rows fb agg H) as (_ & _ & _ & Hw & Hb & Hh & Hl).
    repeat split; apply measurement_of_sum_field; assumption.
  - exact absent_is_10.
  - split; [vm_compute; reflexivity|]. split; [vm_compute; reflexivity|].
    eexists. split; [vm_compute; reflexivity | reflexivity].
Qed.

Lemma C1_measurements_witness :
  rounds_half_away (exact_scale 1000 (exact_sum [(25, -1); (10, 0)])) 12500.
Proof.
  refine (proj1 (proj1 C1_measurements_exact_within_context rows_2_5_absent []
                   {| ids_order_units := [lit "A1"; lit "A2"]; weight_gram := 12500;
                      width_cm := 200; height_cm := 200; length_cm := 200 |} _)
                [(25, -1); (10, 0)] _ _);
    vm_compute; reflexivity.
Defined.

(** ** Unit identifier codes *)

Lemma collect_codes_spec (rows : list row) :
  forall acc, collect_codes rows acc = acc ++ codes_in_order rows.
Proof.
  unfold codes_in_order.
  induction rows as [|r rows IH]; intros acc; cbn [collect_codes flat_map map filter].
  - now rewrite app_nil_r.
  - unfold code_of at 1.
    destruct (row_get (lit "code1") r) as [[|z|s]|]; cbn [app map filter];
      try apply IH.
    + destruct (nonempty (strip (py_str (PInt z)))); rewrite IH; [|reflexivity].
      now rewrite <- app_assoc.
    + destruct (nonempty (strip (py_str (PStr s)))); rewrite IH; [|reflexivity].
      now rewrite <- app_assoc.
Qed.


Lemma drop_while_head (p : char -> bool) (s : str) :
  match drop_while p s with
  | [] => True
  | c :: _ => p c = false
  end.
Proof.
  induction s as [|c s IH]; cbn [drop_while]; [exact I|].
  destruct (p c) eqn:E; [exact IH | exact E].
Qed.

Lemma drop_while_fixed (p : char -> bool) (s : str) :
  match s with [] => True | c :: _ => p c = false end -> drop_while p s = s.
Proof.
  destruct s as [|c s]; [reflexivity|]. cbn [drop_while]. now intros ->.
Qed.

Lemma drop_while_suffix (p : char -> bool) (s : str) :
  exists dropped, s = dropped ++ drop_while p s.
Proof.
  induction s as [|c s [d IH]]; cbn [drop_while].
  - now exists [].
  - destruct (p c); [exists (c :: d); cbn; now f_equal | now exists []].
Qed.

(** Stripping twice is stripping once: a stripped string has no blank at
    either end. *)
Lemma strip_with_idempotent (p : char -> bool) (s : str) :
  rstrip_with p (lstrip_with p (rstrip_with p (lstrip_with p s)))
  = rstrip_with p (lstrip_with p s).
Proof.
  unfold rstrip_with, lstrip_with.
  set (t := drop_while p s).
  pose proof (drop_while_head p s) as Ht. fold t in Ht.
  pose proof (drop_while_head p (rev t)) as Hu.
  destruct (drop_while_suffix p (rev t)) as [d Hd].
  set (v := drop_while p (rev t)) in *.
  assert (Hfront : drop_while p (rev v) = rev v).
  { apply drop_while_fixed.
    assert (Ht' : t = rev v ++ rev d).
    { rewrite <- (rev_involutive t), Hd, rev_app_distr. reflexivity. }
    destruct (rev v) as [|c u] eqn:E; [exact I|].
    rewrite Ht' in Ht. exact Ht. }
  rewrite Hfront, rev_involutive.
  now rewrite (drop_while_fixed p v Hu).
Qed.

Lemma strip_idempotent (s : str) : strip (strip s) = strip s.
Proof. apply strip_with_idempotent. Qed.

Lemma codes_in_order_trimmed (rows : list row) :
  Forall (fun c => c <> [] /\ strip c = c) (codes_in_order rows).
Proof.
  unfold codes_in_order. apply Forall_forall. intros c Hc.
  apply filter_In in Hc as [Hin Hne]. apply in_map_iff in Hin as [s [<- _]].
  split; [|apply strip_idempotent].
  intros E. rewrite E in Hne. discriminate.
Qed.

(** C4: when [aggregate_order_values] returns, the list of unit identifier
    codes is the rows' CODE1 values in row order, each trimmed of
    surrounding whitespace, the absent and the blank ones left out. *)
Theorem C4_codes_in_row_order (rows : list row) (fb : str) (agg : aggregated) :
  aggregate_order_values rows fb = Ok agg ->
  ids_order_units agg = codes_in_order rows
  /\ Forall (fun c => c <> [] /\ strip c = c) (ids_order_units agg).
Proof.
  intros H. destruct (aggregate_ok_inv rows fb agg H) as (_ & Hids & _).
  rewrite Hids, collect_codes_spec. cbn [app].
  split; [reflexivity | apply codes_in_order_trimmed].
Qed.

Lemma C4_codes_witness :
  [lit "A1"; lit "A2"] = codes_in_order rows_2_5_absent
  /\ Forall (fun c => c <> [] /\ strip c = c) [lit "A1"; lit "A2"].
Proof.
  refine (C4_codes_in_row_order rows_2_5_absent []
            {| ids_order_units := [lit "A1"; lit "A2"]; weight_gram := 12500;
               width_cm := 200; height_cm := 200; length_cm := 200 |} _).
  vm_compute; reflexivity.
Defined.

(** ** Failure of [aggregate_order_values] *)

Lemma aggregate_empty (fb : str) :
  aggregate_order_values [] fb = Raise (ValueError (lit "Keine Auftragsdaten vorhanden")).
Proof. reflexivity. Qed.







(** ** The signature *)

Lemma join_four (sep a b c d : str) :
  join sep [a; b; c; d] = a ++ sep ++ b ++ sep ++ c ++ sep ++ d.
Proof. reflexivity. Qed.

Lemma be_bytes_length (n : nat) (x : Z) : List.length (be_bytes n x) = n.
Proof. induction n as [|n IH]; cbn [be_bytes List.length]; [reflexivity | now rewrite IH]. Qed.

Lemma be_bytes_range (n : nat) (x : Z) : Forall (fun b => 0 <= b < 256) (be_bytes n x).
Proof.
  induction n as [|n IH]; cbn [be_bytes]; constructor; [|exact IH].
  apply Z.mod_pos_bound. lia.
Qed.

Lemma compress_length (h : list Z) (block : byte_list) : List.length (compress h block) = 8%nat.
Proof. reflexivity. Qed.

Lemma fold_compress_length (bs : list byte_list) :
  forall h, List.length h = 8%nat -> List.length (fold_left compress bs h) = 8%nat.
Proof.
  induction bs as [|b bs IH]; intros h Hh; cbn [fold_left]; [exact Hh|].
  apply IH, compress_length.
Qed.

Lemma flat_map_be_bytes_length (ws : list Z) :
  List.length (flat_map (be_bytes 4) ws) = (4 * List.length ws)%nat.
Proof.
  induction ws as [|w ws IH]; [reflexivity|].
  cbn [flat_map]. rewrite length_app, be_bytes_length, IH. cbn [List.length]. lia.
Qed.

Lemma sha256_length (msg : byte_list) : List.length (sha256 msg) = 32%nat.
Proof.
  unfold sha256. rewrite flat_map_be_bytes_length, fold_compress_length; reflexivity.
Qed.

Lemma sha256_range (msg : byte_list) : Forall (fun b => 0 <= b < 256) (sha256 msg).
Proof.
  unfold sha256. induction (fold_left compress (blocks (pad msg)) H0) as [|w ws IH];
    cbn [flat_map]; [constructor|].
  apply Forall_app. split; [apply be_bytes_range | exact IH].
Qed.

Lemma hex_digit_lower (d : Z) : 0 <= d < 16 -> is_lower_hex (hex_digit d) = true.
Proof.
  intros Hd. unfold is_lower_hex, hex_digit, in_range.
  apply orb_true_iff.
  destruct (Z.ltb_spec d 10); [left | right];
    apply andb_true_iff; split; apply N.leb_le; lia.
Qed.

Lemma hexdigest_spec (bs : byte_list) :
  Forall (fun b => 0 <= b < 256) bs ->
  List.length (hexdigest bs) = (2 * List.length bs)%nat
  /\ forallb is_lower_hex (hexdigest bs) = true.
Proof.
  unfold hexdigest. induction 1 as [|b bs Hb _ [IHl IHh]]; [split; reflexivity|].
  cbn [flat_map app List.length forallb]. rewrite IHl, IHh.
  rewrite !hex_digit_lower.
  - split; [lia | reflexivity].
  - apply Z.mod_pos_bound. lia.
  - split; [apply Z.div_pos; lia | apply Z.div_lt_upper_bound; lia].
Qed.

Lemma hexdigest_sha256 (msg : byte_list) :
  List.length (hexdigest (sha256 msg)) = 64%nat
  /\ forallb is_lower_hex (hexdigest (sha256 msg)) = true.
Proof.
  destruct (hexdigest_spec _ (sha256_range msg)) as [Hl Hh].
  rewrite sha256_length in Hl. split; assumption.
Qed.

Lemma hexdigest_hmac (key msg : byte_list) :
  List.length (hexdigest (hmac_sha256 key msg)) = 64%nat
  /\ forallb is_lower_hex (hexdigest (hmac_sha256 key msg)) = true.
Proof. unfold hmac_sha256. cbv zeta. apply hexdigest_sha256. Qed.

(** HMAC-SHA256 of RFC 4231, test case 2. *)
Example hmac_sha256_rfc4231_case2 :
  option_map (fun data => hexdigest (hmac_sha256 [74; 101; 102; 101] data))
             (encode_utf8 (lit "what do ya want for nothing?"))
  = Some (lit "5bdcc146bf60754e6a042426089575c75a003f089d2739839dec58b964ec3843").
Proof. vm_compute. reflexivity. Qed.

(** SHA-256 of "abc" (FIPS 180-4). *)
Example sha256_abc :
  hexdigest (sha256 [97; 98; 99])
  = lit "ba7816bf8f01cfea414140de5dae2223b00361a396177a9cb410ff61f20015ad".
Proof. vm_compute. reflexivity. Qed.

(** C2: the signature is the HMAC-SHA256, keyed by the UTF-8 bytes of the
    secret key, of the UTF-8 bytes of method, uri, body and timestamp joined
    by single line feeds with none at the end, written as 64 lower-case
    hexadecimal characters; it depends on the five arguments only. *)
Theorem C2_sign_request_is_hmac (method uri body timestamp secret_key : str)
        (key_bytes message_bytes : byte_list) :
  encode_utf8 secret_key = Some key_bytes ->
  encode_utf8 (canonical_message method uri body timestamp) = Some message_bytes ->
  sign_request method uri body timestamp secret_key
  = Ok (hexdigest (hmac_sha256 key_bytes message_bytes))
  /\ List.length (hexdigest (hmac_sha256 key_bytes message_bytes)) = 64%nat
  /\ forallb is_lower_hex (hexdigest (hmac_sha256 key_bytes message_bytes)) = true
  /\ (forall first second,
         first = sign_request method uri body timestamp secret_key ->
         second = sign_request method uri body timestamp secret_key ->
         first = second).
Proof.
  intros Hk Hm. split; [|split; [|split]].
  - unfold sign_request, encode. rewrite join_four.
    fold (canonical_message method uri body timestamp). now rewrite Hk, Hm.
  - apply hexdigest_hmac.
  - apply hexdigest_hmac.
  - intros first second -> ->. reflexivity.
Qed.

Lemma C2_sign_request_witness :
  sign_request (lit "POST") (lit "https://api.example/x") (lit "{}") (lit "1700000000")
               (lit "secret")
  = Ok (hexdigest (hmac_sha256 [115; 101; 99; 114; 101; 116]
          (map Z.of_N (canonical_message (lit "POST") (lit "https://api.example/x")
                                         (lit "{}") (lit "1700000000"))))).
Proof.
  refine (proj1 (C2_sign_request_is_hmac (lit "POST") (lit "https://api.example/x")
                   (lit "{}") (lit "1700000000") (lit "secret") _ _ _ _));
    vm_compute; reflexivity.
Defined.

(** ** The search for [download_url] *)

Lemma find_app {A : Type} (f : A -> bool) (l1 l2 : list A) :
  find f (l1 ++ l2) = match find f l1 with Some x => Some x | None => find f l2 end.
Proof.
  induction l1 as [|x l1 IH]; cbn [app find]; [reflexivity|].
  destruct (f x); [reflexivity | exact IH].
Qed.

Lemma find_truthy_opt {l : list json} :
  truthy_opt (find truthy l) = match find truthy l with Some _ => true | None => false end.
Proof.
  destruct (find truthy l) as [v|] eqn:E; [|reflexivity].
  apply find_some in E as [_ E]. exact E.
Qed.

Lemma find_download_url_is_find (payload : json) :
  find_download_url payload = find truthy (occurrences payload).
Proof.
  induction payload as [| | | | |items IH|entries IH] using json_nested_ind;
    try reflexivity.
  - cbn [find_download_url occurrences].
    induction IH as [|item rest Hitem _ IHrest]; [reflexivity|].
    rewrite find_app, Hitem, find_truthy_opt.
    destruct (find truthy (occurrences item)); [reflexivity | exact IHrest].
  - cbn [find_download_url occurrences].
    assert (Hvalues :
      (fix values (es : list (str * json)) : option json :=
         match es with
         | [] => None
         | (_, value) :: rest =>
             let result := find_download_url value in
             if truthy_opt result then result else values rest
         end) entries
      = find truthy
          ((fix inside (es : list (str * json)) : list json :=
              match es with
              | [] => []
              | (_, value) :: rest => occurrences value ++ inside rest
              end) entries)).
    { induction IH as [|[k value] rest Hvalue _ IHrest]; [reflexivity|].
      cbn [snd] in Hvalue. cbv zeta.
      rewrite find_app, Hvalue, find_truthy_opt.
      destruct (find truthy (occurrences value)); [reflexivity | exact IHrest]. }
    cbv zeta in Hvalues. rewrite Hvalues.
    destruct (dict_get download_url_key entries) as [v|]; cbn [truthy_opt app find];
      [|reflexivity].
    destruct (truthy v); reflexivity.
Qed.

(** C3: the search is depth first; a mapping's own [download_url] entry comes
    before the occurrences inside its values (in iteration order), a
    sequence's elements come in index order; the result is the first truthy
    value in that order, and nothing when the key occurs nowhere or only
    with empty or false values. *)
Theorem C3_find_download_url_first_truthy (payload : json) :
  find_download_url payload = find truthy (occurrences payload)
  /\ (forall v, find_download_url payload = Some v ->
                truthy v = true /\ In v (occurrences payload))
  /\ (find_download_url payload = None
      <-> forall v, In v (occurrences payload) -> truthy v = false)
  /\ (occurrences payload = [] -> find_download_url payload = None).
Proof.
  rewrite find_download_url_is_find. split; [reflexivity|]. split; [|split].
  - intros v Hv. apply find_some in Hv. tauto.
  - split.
    + intros Hnone v Hin. destruct (truthy v) eqn:E; [|reflexivity].
      now rewrite (find_none _ _ Hnone v Hin) in E.
    + intros Hall. destruct (find truthy (occurrences payload)) as [v|] eqn:E;
        [|reflexivity].
      apply find_some in E as [Hin Ht]. rewrite (Hall v Hin) in Ht. discriminate.
  - intros ->. reflexivity.
Qed.

Lemma C3_find_download_url_witness :
  truthy (JStr (lit "https://x/first.pdf")) = true
  /\ In (JStr (lit "https://x/first.pdf")) (occurrences nested_response).
Proof.
  refine (proj1 (proj2 (C3_find_download_url_first_truthy nested_response)) _ _).
  vm_compute; reflexivity.
Defined.

(** The key at depth 4 is found; the deeper, later one is not consulted;
    an empty value or no key gives nothing. *)
Example find_download_url_nested :
  find_download_url nested_response = Some (JStr (lit "https://x/first.pdf"))
  /\ find_download_url (JDict [(lit "a", JList [JDict [(lit "download_url", JStr [])]])]) = None
  /\ find_download_url (JDict [(lit "a", JList [JInt 1; JNull])]) = None.
Proof. repeat split; vm_compute; reflexivity. Qed.

(** ** File-name segments *)

Lemma latin1_in_codes (c : char) : Unicode.latin1 c = true -> In c latin1_codes.
Proof.
  unfold Unicode.latin1, latin1_codes. intros H. apply N.leb_le in H.
  apply in_map_iff. exists (N.to_nat c). split; [apply N2Nat.id|].
  apply in_seq. lia.
Qed.


Lemma drop_while_incl (p : char -> bool) (s : str) (c : char) :
  In c (drop_while p s) -> In c s.
Proof.
  induction s as [|x s IH]; cbn [drop_while]; [tauto|].
  destruct (p x); intros H; [right; apply IH, H | exact H].
Qed.

Lemma strip_chars_incl (chars s : str) (c : char) : In c (strip_chars chars s) -> In c s.
Proof.
  unfold strip_chars, rstrip_with, lstrip_with. intros H.
  apply in_rev, drop_while_incl, in_rev, drop_while_incl in H. exact H.
Qed.







(** ** The regular expression *)

Section RegexFacts.

Variables (is_decimal is_word : char -> bool).















End RegexFacts.

(** ** The run *)

Import Run.

Lemma first_fsrowid_blank (rows : list row) :
  (forall r, In r rows -> has_fsrowid r = false) ->
  str_truthy (first_fsrowid rows) = false.
Proof.
  induction rows as [|r rows IH]; intros H; [reflexivity|].
  cbn [first_fsrowid]. pose proof (H r (or_introl eq_refl)) as Hr.
  unfold has_fsrowid in Hr.
  destruct (row_get (lit "fsrowid") r) as [[|z|s]|]; try exact Hr;
    apply IH; intros x Hx; apply H; now right.
Qed.

Set Warnings "-unused-intro-pattern".

Section RunFacts.

Local Opaque aggregate_order_values sign_request find_download_url
      sanitize_filename_segment search_tracking pdf_text_of is_pdf order_identifier
      next_belegnr first_fsrowid str_of_Z lit Dumps.dumps_compact Dumps.dumps_indent2
      join truthy nonempty raises_for_status.


Lemma handle_with_memo (w : world) (memo : str -> str -> unit + str) r st :
  handle (with_memo w memo) r st = handle w r st.
Proof. reflexivity. Qed.



Lemma handle_spec (w : world) (r : result unit) (st : state) :
  fst (handle w r st) = outcome_of r
  /\ log_messages (snd (handle w r st)) = log_messages st ++ crash_note w r
  /\ events (snd (handle w r st)) = events st
  /\ order_rows (snd (handle w r st)) = order_rows st
  /\ order_number_db (snd (handle w r st)) = order_number_db st
  /\ suffix (snd (handle w r st)) = suffix st
  /\ target_path (snd (handle w r st)) = target_path st
  /\ tracking_number (snd (handle w r st)) = tracking_number st.
Proof.
  destruct r as [u|[]]; cbn; rewrite ?app_nil_r; repeat split; reflexivity.
Qed.

Lemma finally_spec (w : world) (st : state) :
  events (snd (finally_ w st)) = events st ++ memo_call w st st
  /\ log_messages (snd (finally_ w st)) = log_messages st ++ memo_note w st st
  /\ order_rows (snd (finally_ w st)) = order_rows st
  /\ order_number_db (snd (finally_ w st)) = order_number_db st
  /\ suffix (snd (finally_ w st)) = suffix st
  /\ target_path (snd (finally_ w st)) = target_path st
  /\ tracking_number (snd (finally_ w st)) = tracking_number st.
Proof.
  unfold finally_, memo_call, memo_note, update_order_memo, call, try_except, bind,
    emit, ret, raise, log.
  destruct (str_truthy (order_number_db st)); cbn; rewrite ?app_nil_r;
    [|repeat split; reflexivity].
  destruct (db_update_memo w (join LF (log_messages st)) (str_value (order_number_db st)));
    cbn; rewrite ?app_nil_r; repeat split; reflexivity.
Qed.

Lemma main_frame (w : world) :
  let r := fst (body w initial_state) in
  let before := snd (body w initial_state) in
  let decided := snd (handle w r before) in
  fst (main w) = outcome_of r
  /\ events (snd (main w)) = events before ++ memo_call w before decided
  /\ log_messages (snd (main w))
     = log_messages before ++ crash_note w r ++ memo_note w before decided
  /\ order_rows (snd (main w)) = order_rows before
  /\ order_number_db (snd (main w)) = order_number_db before
  /\ suffix (snd (main w)) = suffix before
  /\ target_path (snd (main w)) = target_path before
  /\ tracking_number (snd (main w)) = tracking_number before.
Proof.
  cbv zeta. unfold main.
  destruct (body w initial_state) as [r st1]. cbn [fst snd].
  destruct (handle_spec w r st1) as (H1 & H2 & H3 & H4 & H5 & H6 & H7 & H8).
  destruct (handle w r st1) as [out st2]. cbn [fst snd] in *.
  destruct (finally_spec w st2) as (F1 & F2 & F3 & F4 & F5 & F6 & F7).
  unfold memo_call, memo_note in *.
  rewrite F1, F2, F3, F4, F5, F6, F7, H1, ?H2, ?H3, ?H4, ?H5, ?H6, ?H7, ?H8.
  rewrite <- app_assoc. repeat split; reflexivity.
Qed.

Lemma body_no_rowid (w : world) (number : str) :
  tracking_number (snd (body w initial_state)) = Some number ->
  (forall r, In r (order_rows (snd (body w initial_state))) -> has_fsrowid r = false) ->
  fst (body w initial_state) = Raise (SystemExit 1)
  /\ forallb (fun ev => negb (is_insert ev)) (events (snd (body w initial_state))) = true
  /\ In no_fsrowid_warning (log_messages (snd (body w initial_state))).
Proof.
  unfold no_fsrowid_warning. unfold_run. exec.
  all: intros _ Hrows.
  all: try match goal with
           | H : str_truthy (first_fsrowid ?rows) = true |- _ =>
               pose proof (first_fsrowid_blank rows Hrows); congruence
           end.
  all: repeat split; auto 20.
Qed.

Lemma body_api_failure (w : world) (u : str) (headers : list (str * str)) (data : str)
      (resp : response) :
  In (EvPost u headers data) (events (snd (body w initial_state))) ->
  http_post w u headers data = inl resp ->
  raises_for_status (status_code resp) = true \/ (exists msg, parsed resp = inr msg) ->
  fst (body w initial_state) = Raise (SystemExit 1)
  /\ In (text resp) (log_messages (snd (body w initial_state)))
  /\ events (snd (body w initial_state))
     = [EvOrderQuery (order_number_input w); EvPost u headers data].
Proof.
  unfold_run. exec.
  all: intros Hin Hpost Hbad.
  all: repeat (destruct Hin as [Hin|Hin]; try discriminate Hin); try contradiction.
  all: injection Hin as <- <- <-.
  all: match goal with
       | H : http_post _ _ _ _ = inl ?r |- _ =>
           rewrite H in Hpost; injection Hpost as <-
       | H : http_post _ _ _ _ = inr _ |- _ => rewrite H in Hpost; discriminate Hpost
       end.
  all: try (destruct Hbad as [Hbad|[msg Hbad]]; congruence).
  all: repeat split; auto 20.
Qed.

End RunFacts.



Lemma memo_call_only_memo (w : world) (before decided : state) :
  forallb is_memo (memo_call w before decided) = true.
Proof. unfold memo_call. destruct (str_truthy (order_number_db before)); reflexivity. Qed.

Lemma in_main_events (w : world) (ev : event) :
  is_memo ev = false ->
  In ev (events (snd (main w))) -> In ev (events (snd (body w initial_state))).
Proof.
  intros Hev Hin. destruct (main_frame w) as (_ & Hevents & _).
  rewrite Hevents in Hin. apply in_app_or in Hin as [Hin|Hin]; [exact Hin|].
  pose proof (memo_call_only_memo w (snd (body w initial_state))
                (snd (handle w (fst (body w initial_state)) (snd (body w initial_state)))))
    as Hmemo.
  rewrite forallb_forall in Hmemo. rewrite (Hmemo ev Hin) in Hev. discriminate.
Qed.

Lemma forallb_not_memo_call (f : event -> bool) (w : world) (before decided : state) :
  (forall o t, f (EvUpdateMemo o t) = true) ->
  forallb f (memo_call w before decided) = true.
Proof.
  intros Hf. unfold memo_call.
  destruct (str_truthy (order_number_db before)); cbn; [now rewrite Hf | reflexivity].
Qed.





(** C9 as stated fails for a status outside 200-299 for which
    [raise_for_status] does not raise: a label request answered with status
    300 and a well-formed JSON body is not treated as a failure; the run
    goes on to download the label and completes. *)
Lemma C9_status_300_counterexample :
  status_code (sample_response 300) = 300
  /\ raises_for_status 300 = false
  /\ http_post world_status_300 (uri world_status_300) [] [] = inl (sample_response 300)
  /\ fst (main world_status_300) = Completed
  /\ existsb is_get (events (snd (main world_status_300))) = true
  /\ existsb is_insert (events (snd (main world_status_300))) = true.
Proof. repeat split; vm_compute; reflexivity. Qed.

(** C9 (amended): when the label request is answered with a status from 400
    to 599, or with a body that is not JSON, the run is aborted at once: the
    raw response text is in the log, and after the request the run makes no
    call but the memo write of the cleanup phase; the request is made
    once. *)
Theorem C9_api_failure_aborts (w : world) (u : str) (headers : list (str * str))
        (data : str) (resp : response) :
  In (EvPost u headers data) (events (snd (main w))) ->
  http_post w u headers data = inl resp ->
  400 <= status_code resp < 600 \/ (exists msg, parsed resp = inr msg) ->
  fst (main w) = Aborted 1
  /\ In (text resp) (log_messages (snd (main w)))
  /\ exists cleanup,
      events (snd (main w))
      = [EvOrderQuery (order_number_input w); EvPost u headers data] ++ cleanup
      /\ forallb is_memo cleanup = true.
Proof.
  intros Hin Hpost Hbad. apply in_main_events in Hin; [|reflexivity].
  assert (Hbad' : raises_for_status (status_code resp) = true
                  \/ (exists msg, parsed resp = inr msg)).
  { destruct Hbad as [[Hlo Hhi]|Hbad]; [left | right; exact Hbad].
    unfold raises_for_status. apply andb_true_iff.
    split; [apply Z.leb_le | apply Z.ltb_lt]; assumption. }
  destruct (body_api_failure w u headers data resp Hin Hpost Hbad') as (Hr & Hlog & Hev).
  destruct (main_frame w) as (Hout & Hev' & Hlog' & _).
  rewrite Hout, Hev', Hlog', Hr, Hev. split; [reflexivity|]. split.
  - apply in_or_app. left. exact Hlog.
  - eexists. split; [reflexivity | apply memo_call_only_memo].
Qed.

Lemma C9_api_failure_witness :
  fst (main world_status_500) = Aborted 1
  /\ In (text (sample_response 500)) (log_messages (snd (main world_status_500))).
Proof.
  destruct (C9_api_failure_aborts world_status_500
              (fst (fst (post_of (events (snd (main world_status_500))))))
              (snd (fst (post_of (events (snd (main world_status_500))))))
              (snd (post_of (events (snd (main world_status_500)))))
              (sample_response 500)) as (H1 & H2 & _).
  - vm_compute. right. left. reflexivity.
  - reflexivity.
  - left. cbn. lia.
  - split; assumption.
Defined.

(** C10: in a run that extracted the tracking number while no fetched row
    carries a non-blank row identifier, neither the tracking write nor the
    carrier write is made, the warning is logged and the run is aborted. *)
Theorem C10_no_row_identifier_aborts (w : world) (number : str) :
  tracking_number (snd (main w)) = Some number ->
  (forall r, In r (order_rows (snd (main w))) -> has_fsrowid r = false) ->
  fst (main w) = Aborted 1
  /\ forallb (fun ev => negb (is_insert ev)) (events (snd (main w))) = true
  /\ In no_fsrowid_warning (log_messages (snd (main w))).
Proof.
  destruct (main_frame w) as (Hout & Hev & Hlog & Hrows & _ & _ & _ & Hn).
  rewrite Hn, Hrows. intros Hnumber Hnone.
  destruct (body_no_rowid w number Hnumber Hnone) as (Hr & Hins & Hwarn).
  rewrite Hout, Hev, Hlog, Hr, forallb_app, Hins.
  rewrite forallb_not_memo_call by reflexivity.
  repeat split. apply in_or_app. left. exact Hwarn.
Qed.

Lemma C10_no_row_identifier_witness :
  fst (main world_no_rowid) = Aborted 1
  /\ forallb (fun ev => negb (is_insert ev)) (events (snd (main world_no_rowid))) = true
  /\ In no_fsrowid_warning (log_messages (snd (main world_no_rowid))).
Proof.
  refine (C10_no_row_identifier_aborts world_no_rowid (lit "123456789012") _ _).
  - vm_compute. reflexivity.
  - intros r Hr. vm_compute in Hr. destruct Hr as [<-|[]]. vm_compute. reflexivity.
Defined.

(** The sample run in which everything succeeds: the calls in order, two
    writes then the memo. *)
Example run_ok_calls :
  fst (main world_ok) = Completed
  /\ map (fun ev => match ev with
                    | EvOrderQuery _ => 1 | EvPost _ _ _ => 2 | EvGet _ => 3
                    | EvWriteFile _ _ => 4 | EvReadPdf _ => 5
                    | EvInsertTracking _ _ => 6 | EvInsertCarrier _ => 7
                    | EvUpdateMemo _ _ => 8
                    end) (events (snd (main world_ok)))
     = [1; 2; 3; 4; 5; 6; 7; 8]
  /\ fst (main world_png) = Completed
  /\ tracking_number (snd (main world_png)) = None.
Proof. repeat split; vm_compute; reflexivity. Qed.

(* ================================================================== *)
(** * Further properties of the code *)

(** ** Integer cells *)

Lemma digits_of_uint (d : Decimal.uint) :
  forall acc,
    fold_left (fun a c => 10 * a + (Z.of_N c - 48)) (lit (NilEmpty.string_of_uint d)) acc
    = uint_value d acc.
Proof.
  induction d; intros acc; try reflexivity; cbn [NilEmpty.string_of_uint uint_value];
    unfold lit in *; cbn [list_ascii_of_string map fold_left]; rewrite IHd; reflexivity.
Qed.

Lemma uint_chars_are_digits (d : Decimal.uint) :
  forallb is_ascii_digit (lit (NilEmpty.string_of_uint d)) = true.
Proof.
  induction d; try reflexivity; cbn [NilEmpty.string_of_uint];
    unfold lit in *; cbn [list_ascii_of_string map forallb]; rewrite IHd; reflexivity.
Qed.

Lemma uint_value_revapp (d : Decimal.uint) :
  forall r, Z.of_N (DecimalPos.Unsigned.of_lu (Decimal.revapp d r)) = uint_value d (Z.of_N (DecimalPos.Unsigned.of_lu r)).
Proof.
  induction d; intros r; [reflexivity|..]; cbn [Decimal.revapp uint_value];
    rewrite IHd; f_equal; cbn [DecimalPos.Unsigned.of_lu]; lia.
Qed.

Lemma uint_value_of_uint (d : Decimal.uint) : uint_value d 0 = Z.of_N (Pos.of_uint d).
Proof.
  rewrite DecimalPos.Unsigned.of_uint_alt. unfold Decimal.rev.
  now rewrite uint_value_revapp.
Qed.

Lemma span_all (p : char -> bool) (s : str) :
  forallb p s = true -> span p s = (s, []).
Proof.
  induction s as [|c s IH]; [reflexivity|]. cbn [forallb span].
  intros H. apply andb_true_iff in H as [-> H]. now rewrite (IH H).
Qed.

Lemma digits_not_space (c : char) : is_ascii_digit c = true -> isspace c = false.
Proof.
  unfold is_ascii_digit, isspace, in_range. intros H.
  apply andb_true_iff in H as [H1 H2]. apply N.leb_le in H1. apply N.leb_le in H2.
  repeat (apply orb_false_iff; split);
    try (apply andb_false_iff; (left; apply N.leb_gt; lia) || (right; apply N.leb_gt; lia));
    apply N.eqb_neq; lia.
Qed.

Lemma strip_edges (p : char -> bool) (s : str) :
  let r := rstrip_with p (lstrip_with p s) in
  match r with [] => True | c :: _ => p c = false end
  /\ match rev r with [] => True | c :: _ => p c = false end.
Proof.
  unfold rstrip_with, lstrip_with. cbv zeta.
  set (t := drop_while p s).
  pose proof (drop_while_head p s) as Ht. fold t in Ht.
  pose proof (drop_while_head p (rev t)) as Hu.
  destruct (drop_while_suffix p (rev t)) as [d Hd].
  set (u := drop_while p (rev t)) in *.
  split.
  - assert (E : t = rev u ++ rev d).
    { rewrite <- (rev_involutive t), Hd, rev_app_distr. reflexivity. }
    destruct (rev u) as [|c r] eqn:Er; [exact I|]. rewrite E in Ht. exact Ht.
  - rewrite rev_involutive. exact Hu.
Qed.

Lemma strip_fixed_edges (p : char -> bool) (s : str) :
  match s with [] => True | c :: _ => p c = false end ->
  match rev s with [] => True | c :: _ => p c = false end ->
  rstrip_with p (lstrip_with p s) = s.
Proof.
  intros H1 H2. unfold rstrip_with, lstrip_with.
  rewrite (drop_while_fixed p s H1), (drop_while_fixed p (rev s) H2).
  apply rev_involutive.
Qed.

Lemma forallb_rev {A} (f : A -> bool) (l : list A) :
  forallb f (rev l) = forallb f l.
Proof.
  induction l as [|x l IH]; [reflexivity|].
  cbn [rev forallb]. rewrite forallb_app, IH. cbn. rewrite andb_true_r. apply andb_comm.
Qed.

Lemma digits_strip (s : str) : forallb is_ascii_digit s = true -> strip s = s.
Proof.
  intros H. apply (strip_fixed_edges isspace).
  - destruct s as [|c s]; [exact I|]. cbn in H. apply andb_true_iff in H as [H _].
    now apply digits_not_space.
  - rewrite <- forallb_rev in H. destruct (rev s) as [|c r]; [exact I|].
    cbn in H. apply andb_true_iff in H as [H _]. now apply digits_not_space.
Qed.

Lemma digits_no_underscore (s : str) :
  forallb is_ascii_digit s = true -> filter (fun c => negb (N.eqb c 95)) s = s.
Proof.
  induction s as [|c s IH]; [reflexivity|]. cbn [forallb filter].
  intros H. apply andb_true_iff in H as [Hc H]. rewrite (IH H).
  unfold is_ascii_digit, in_range in Hc. apply andb_true_iff in Hc as [_ Hc].
  apply N.leb_le in Hc. destruct (N.eqb_spec c 95); [lia | reflexivity].
Qed.

Lemma parse_digits (sg : Z) (s : str) :
  s <> [] -> forallb is_ascii_digit s = true ->
  parse_finite sg s = Some (Fin (sg * digits_to_Z s) 0).
Proof.
  intros Hne Hd. unfold parse_finite. rewrite (span_all _ _ Hd).
  destruct s as [|c s]; [congruence|]. cbn [nonempty orb]. rewrite List.app_nil_r. reflexivity.
Qed.

Lemma of_str_digits (s : str) :
  s <> [] -> forallb is_ascii_digit s = true ->
  of_str s = Some (Fin (digits_to_Z s) 0)
  /\ of_str (45%N :: s) = Some (Fin (- digits_to_Z s) 0).
Proof.
  intros Hne Hd. pose proof (digits_strip s Hd) as Hs.
  pose proof (digits_no_underscore s Hd) as Hu. split.
  - unfold of_str. rewrite Hs, Hu.
    destruct s as [|c s]; [congruence|].
    assert (Hc : is_ascii_digit c = true) by (cbn in Hd; now apply andb_true_iff in Hd).
    unfold is_ascii_digit, in_range in Hc. apply andb_true_iff in Hc as [H1 H2].
    apply N.leb_le in H1. apply N.leb_le in H2.
    destruct c as [|p]; [lia|].
    assert (Hp : (48 <= p <= 57)%positive) by lia.
    assert (Hcases : (p = 48 \/ p = 49 \/ p = 50 \/ p = 51 \/ p = 52 \/ p = 53
                      \/ p = 54 \/ p = 55 \/ p = 56 \/ p = 57)%positive) by lia.
    clear H1 H2 Hp Hs Hu.
    repeat (destruct Hcases as [->|Hcases]); try subst p; cbv iota beta;
      rewrite (parse_digits 1 _ Hne Hd); f_equal; f_equal; lia.
  - unfold of_str.
    assert (Hstrip : strip (45%N :: s) = 45%N :: s).
    { apply (strip_fixed_edges isspace); [reflexivity|].
      cbn [rev]. rewrite <- forallb_rev in Hd.
      destruct (rev s) as [|c r]; [reflexivity|].
      cbn [app]. cbn in Hd. apply andb_true_iff in Hd as [Hd _].
      now apply digits_not_space. }
    rewrite Hstrip. cbn [filter N.eqb Pos.eqb negb]. rewrite Hu.
    rewrite (parse_digits (-1) s Hne Hd). cbv iota beta. do 2 f_equal; try lia.
Qed.

Lemma to_uint_chars (p : positive) :
  lit (NilZero.string_of_uint (Pos.to_uint p)) <> []
  /\ forallb is_ascii_digit (lit (NilZero.string_of_uint (Pos.to_uint p))) = true
  /\ digits_to_Z (lit (NilZero.string_of_uint (Pos.to_uint p))) = Z.pos p.
Proof.
  pose proof (DecimalPos.Unsigned.to_uint_nonnil p) as Hnil.
  assert (E : NilZero.string_of_uint (Pos.to_uint p) = NilEmpty.string_of_uint (Pos.to_uint p)).
  { destruct (Pos.to_uint p); [congruence | reflexivity..]. }
  rewrite E. split; [|split].
  - destruct (Pos.to_uint p); [congruence|..]; discriminate.
  - apply uint_chars_are_digits.
  - unfold digits_to_Z. rewrite digits_of_uint, uint_value_of_uint, DecimalPos.Unsigned.of_to. reflexivity.
Qed.

(** [Decimal(str(z))] is the integer [z]. *)
Lemma of_str_of_Z (z : Z) : of_str (str_of_Z z) = Some (Fin z 0).
Proof.
  unfold str_of_Z. destruct z as [|p|p]; [reflexivity|..];
    destruct (to_uint_chars p) as (Hne & Hd & Hv);
    destruct (of_str_digits _ Hne Hd) as [Hpos Hneg].
  - cbn [Z.to_int NilZero.string_of_int]. rewrite Hpos, Hv. reflexivity.
  - cbn [Z.to_int NilZero.string_of_int].
    change (lit (String "-" (NilZero.string_of_uint (Pos.to_uint p))))
      with (45%N :: lit (NilZero.string_of_uint (Pos.to_uint p))).
    rewrite Hneg, Hv. reflexivity.
Qed.

(** X1: an integer cell, and a text cell holding the decimal digits of an
    integer, convert to exactly that integer, with exponent 0 (for the
    integers of fewer than 4300 digits, which every Python version turns
    into text). *)
Theorem ensure_decimal_of_integer (z : Z) (label : str) :
  Z.abs z < 10 ^ 4300 ->
  ensure_decimal (PInt z) label = Ok (Fin z 0)
  /\ ensure_decimal (PStr (str_of_Z z)) label = Ok (Fin z 0).
Proof.
  intros _. unfold ensure_decimal. cbn [py_str]. now rewrite of_str_of_Z.
Qed.

Lemma ensure_decimal_of_integer_witness :
  ensure_decimal (PInt (-4711)) (lit "weight_gram") = Ok (Fin (-4711) 0)
  /\ ensure_decimal (PStr (str_of_Z (-4711))) (lit "weight_gram") = Ok (Fin (-4711) 0).
Proof.
  apply (ensure_decimal_of_integer (-4711) (lit "weight_gram")).
  apply Z.ltb_lt. vm_compute. reflexivity.
Defined.

Lemma ensure_decimal_int (z : Z) (label : str) :
  ensure_decimal (PInt z) label = Ok (Fin z 0).
Proof. unfold ensure_decimal. cbn [py_str]. now rewrite of_str_of_Z. Qed.

Lemma finite_values_ints (names : list str) (label : str) :
  forall rows zs,
    Forall2 (fun r z => field_value names r = PInt z) rows zs ->
    finite_values names label rows = Some (int_values zs).
Proof.
  induction 1 as [|r z rows zs Hr _ IH]; [reflexivity|].
  cbn [finite_values int_values map]. rewrite Hr, ensure_decimal_int.
  fold (int_values zs). now rewrite IH.
Qed.

Lemma exact_add_ints (t z : Z) : exact_add (t, 0) (z, 0) = (t + z, 0).
Proof. unfold exact_add. cbn [fst snd]. f_equal. change (10 ^ (0 - Z.min 0 0)) with 1. lia. Qed.

Lemma fold_exact_add_ints (zs : list Z) :
  forall t, fold_left exact_add (int_values zs) (t, 0) = (t + sum_Z zs, 0).
Proof.
  induction zs as [|z zs IH]; intros t; cbn [int_values map fold_left sum_Z fold_right].
  - f_equal. lia.
  - rewrite exact_add_ints. fold (int_values zs). rewrite IH. f_equal.
    change (fold_right Z.add 0 zs) with (sum_Z zs). lia.
Qed.

Lemma sum_Z_nonneg (zs : list Z) : Forall (fun z => 0 <= z) zs -> 0 <= sum_Z zs.
Proof. induction 1; cbn [sum_Z fold_right]; [lia|]. fold (sum_Z l). lia. Qed.

Lemma fits_small (m : Z) : 0 <= m < 10 ^ 28 -> fits (m, 0) = true.
Proof.
  intros H. unfold fits. cbn [fst snd]. rewrite !andb_true_iff.
  repeat split; try reflexivity. apply Z.ltb_lt. unfold prec. lia.
Qed.

Lemma totals_fit_ints (zs : list Z) :
  forall t,
    0 <= t -> Forall (fun z => 0 <= z) zs -> t + sum_Z zs < 10 ^ 28 ->
    totals_fit (t, 0) (int_values zs) = true.
Proof.
  induction zs as [|z zs IH]; intros t Ht Hz Hsum; [reflexivity|].
  inversion Hz as [|z' zs' Hz0 Hzs]; subst.
  cbn [int_values map totals_fit]. rewrite exact_add_ints.
  cbn [sum_Z fold_right] in Hsum. fold (sum_Z zs) in Hsum.
  pose proof (sum_Z_nonneg zs Hzs).
  rewrite fits_small by lia. cbn [andb]. apply IH; [lia | exact Hzs | lia].
Qed.

(** X2: rows whose cells for a field are non-negative integers (a missing
    cell counting as 10) sum without any rounding: the result is the
    multiplier times the integer sum, as long as that stays below 10^28. *)
Theorem sum_field_of_integers (rows : list row) (names : list str) (label : str)
        (multiplier : Z) (zs : list Z) :
  Forall2 (fun r z => field_value names r = PInt z) rows zs ->
  Forall (fun z => 0 <= z) zs ->
  1 <= multiplier ->
  multiplier * sum_Z zs < 10 ^ 28 ->
  sum_field rows names label multiplier = Ok (multiplier * sum_Z zs).
Proof.
  intros Hrows Hz Hk Hbound.
  pose proof (sum_Z_nonneg zs Hz) as Hs.
  assert (Hsum : sum_Z zs < 10 ^ 28) by nia.
  pose proof (finite_values_ints names label rows zs Hrows) as Hv.
  assert (Hfit : sum_fits multiplier (int_values zs) = true).
  { unfold sum_fits. rewrite totals_fit_ints by (try assumption; lia). cbn [andb].
    unfold exact_sum. rewrite fold_exact_add_ints. unfold exact_scale. cbn [fst snd].
    apply fits_small. nia. }
  destruct (sum_field_exact rows names label multiplier _ Hv Hfit) as [n [Hn Hr]].
  rewrite Hn. f_equal.
  unfold exact_sum in Hr. rewrite fold_exact_add_ints in Hr.
  unfold rounds_half_away, exact_scale in Hr. cbn [fst snd] in Hr.
  change (0 >=? 0) with true in Hr. cbv iota in Hr. rewrite Hr. rewrite Z.pow_0_r. lia.
Qed.

Lemma sum_field_of_integers_witness :
  sum_field rows_integers weight_names (lit "weight_gram") 1000 = Ok (1000 * sum_Z [2; 10]).
Proof.
  apply (sum_field_of_integers rows_integers weight_names (lit "weight_gram") 1000 [2; 10]).
  - repeat constructor.
  - repeat constructor; lia.
  - lia.
  - vm_compute. reflexivity.
Defined.

(** ** Values that do not convert *)

Lemma sum_loop_raises (names : list str) (label : str) (bad : row) (e : exn) :
  ensure_decimal (field_value names bad) label = Raise e ->
  forall rows total,
    In bad rows -> exists e', sum_loop names label rows total = Raise e'.
Proof.
  intros Hbad. induction rows as [|r rows IH]; intros total Hin; [contradiction|].
  cbn [sum_loop]. destruct Hin as [->|Hin].
  - rewrite Hbad. cbn [rbind]. now exists e.
  - destruct (ensure_decimal (field_value names r) label) as [d|e1]; cbn [rbind];
      [|now exists e1].
    destruct (add total d) as [t|e2]; cbn [rbind]; [|now exists e2].
    apply IH, Hin.
Qed.

Lemma sum_field_raises (rows : list row) (names : list str) (label : str) (k : Z) :
  forallb (converts names label) rows = false ->
  exists e, sum_field rows names label k = Raise e.
Proof.
  intros H.
  assert (Hex : exists bad, In bad rows /\ converts names label bad = false).
  { induction rows as [|r rows IH]; [discriminate|]. cbn [forallb] in H.
    destruct (converts names label r) eqn:E.
    - destruct (IH H) as [bad [Hin Hb]]. exists bad. split; [now right | exact Hb].
    - exists r. split; [now left | exact E]. }
  destruct Hex as [bad [Hin Hb]]. unfold converts in Hb.
  destruct (ensure_decimal (field_value names bad) label) as [d|e] eqn:E; [discriminate|].
  destruct (sum_loop_raises names label bad e E rows (Fin 0 0) Hin) as [e' He'].
  unfold sum_field. rewrite He'. cbn [rbind]. now exists e'.
Qed.

(** X3: a value that does not convert, in any row and any of the four
    fields, makes the aggregation fail: it is never skipped or defaulted. *)
Theorem aggregate_needs_convertible_fields (rows : list row) (fb : str) (agg : aggregated) :
  aggregate_order_values rows fb = Ok agg ->
  numeric_fields_convert rows = true.
Proof.
  intros H. destruct (aggregate_ok_inv rows fb agg H) as (_ & _ & _ & Hw & Hb & Hh & Hl).
  unfold numeric_fields_convert.
  destruct (forallb (converts weight_names (lit "weight_gram")) rows) eqn:E1.
  2:{ destruct (sum_field_raises rows _ _ 1000 E1) as [e He]. congruence. }
  destruct (forallb (converts width_names (lit "width_cm")) rows) eqn:E2.
  2:{ destruct (sum_field_raises rows _ _ 10 E2) as [e He]. congruence. }
  destruct (forallb (converts height_names (lit "height_cm")) rows) eqn:E3.
  2:{ destruct (sum_field_raises rows _ _ 10 E3) as [e He]. congruence. }
  destruct (forallb (converts length_names (lit "length_cm")) rows) eqn:E4.
  2:{ destruct (sum_field_raises rows _ _ 10 E4) as [e He]. congruence. }
  reflexivity.
Qed.

Lemma aggregate_needs_convertible_fields_witness :
  numeric_fields_convert rows_integers = true.
Proof.
  destruct (aggregate_order_values rows_integers []) as [agg|e] eqn:E.
  - exact (aggregate_needs_convertible_fields rows_integers [] agg E).
  - vm_compute in E. discriminate E.
Defined.




(** ** Sanitized segments *)

Lemma lower_char_stable_latin1 (c : char) :
  Unicode.latin1 c = true -> lower_char_stable c = true.
Proof.
  intros H. apply latin1_in_codes in H. revert c H. apply forallb_forall.
  vm_compute. reflexivity.
Qed.

Lemma stable_inv (c : char) :
  keep_char c = true -> lower_char_stable c = true ->
  Unicode.lower_char c = [lower1 c]
  /\ keep_char (lower1 c) = true
  /\ Unicode.latin1 (lower1 c) = true
  /\ hyphen_like (lower1 c) = hyphen_like c
  /\ Unicode.lower_char (lower1 c) = [lower1 c].
Proof.
  intros Hk H. unfold lower_char_stable in H. rewrite Hk in H. cbn [negb orb] in H.
  unfold lower1.
  destruct (Unicode.lower_char c) as [|c' [|? ?]]; try discriminate. cbn [hd].
  repeat (apply andb_true_iff in H as [H ?]).
  destruct (Unicode.lower_char c') as [|c'' [|? ?]]; try discriminate.
  repeat split; try assumption.
  - now apply Bool.eqb_prop.
  - f_equal. now apply N.eqb_eq.
Qed.

Lemma lower_is_map (s : str) :
  (forall c, In c s -> keep_char c = true /\ Unicode.latin1 c = true) ->
  Unicode.lower s = map lower1 s.
Proof.
  unfold Unicode.lower. induction s as [|c s IH]; intros H; [reflexivity|].
  cbn [flat_map map]. rewrite IH by (intros x Hx; apply H; now right).
  destruct (H c (or_introl eq_refl)) as [Hk Hl].
  destruct (stable_inv c Hk (lower_char_stable_latin1 c Hl)) as (-> & _). reflexivity.
Qed.

Lemma head_map (f : char -> char) (p : char -> bool) (s : str) :
  (forall c, In c s -> p (f c) = p c) ->
  match s with [] => True | c :: _ => p c = false end ->
  match map f s with [] => True | c :: _ => p c = false end.
Proof.
  destruct s as [|c s]; [trivial|]. cbn [map]. intros H Hc.
  rewrite H; [exact Hc | now left].
Qed.

(** X5: on Latin-1 input a sanitized segment is a fixed point of the
    function, and it neither begins nor ends with a hyphen or underscore. *)
Theorem sanitize_is_idempotent (value : str) :
  forallb Unicode.latin1 value = true ->
  sanitize_filename_segment (sanitize_filename_segment value)
  = sanitize_filename_segment value
  /\ edge_ok (sanitize_filename_segment value)
  /\ edge_ok (rev (sanitize_filename_segment value)).
Proof.
  intros Hl. unfold sanitize_filename_segment at 2 3 4 5. cbv zeta.
  set (cleaned := strip_chars (lit "-_") (filter keep_char value)).
  destruct (nonempty cleaned) eqn:Hne.
  2:{ repeat split; vm_compute; reflexivity. }
  assert (Hin : forall c, In c cleaned -> keep_char c = true /\ Unicode.latin1 c = true).
  { intros c Hc. apply strip_chars_incl, filter_In in Hc as [Hc Hk]. split; [exact Hk|].
    apply (proj1 (forallb_forall _ _) Hl), Hc. }
  rewrite (lower_is_map cleaned Hin).
  assert (Hp : forall c, In c cleaned -> hyphen_like (lower1 c) = hyphen_like c).
  { intros c Hc. destruct (Hin c Hc) as [Hk Hl1].
    now destruct (stable_inv c Hk (lower_char_stable_latin1 c Hl1)) as (_ & _ & _ & H & _). }
  destruct (strip_edges hyphen_like (filter keep_char value)) as [He1 He2].
  change (rstrip_with hyphen_like (lstrip_with hyphen_like (filter keep_char value)))
    with cleaned in He1, He2.
  assert (E1 : edge_ok (map lower1 cleaned)).
  { apply (head_map lower1 hyphen_like cleaned Hp He1). }
  assert (E2 : edge_ok (rev (map lower1 cleaned))).
  { rewrite <- map_rev. apply (head_map lower1 hyphen_like (rev cleaned)); [|exact He2].
    intros c Hc. apply Hp. now apply in_rev. }
  split; [|split; assumption].
  unfold sanitize_filename_segment. cbv zeta.
  assert (Hf : filter keep_char (map lower1 cleaned) = map lower1 cleaned).
  { apply forallb_filter_id. apply forallb_forall. intros x Hx.
    apply in_map_iff in Hx as [c [<- Hc]]. destruct (Hin c Hc) as [Hk Hl1].
    now destruct (stable_inv c Hk (lower_char_stable_latin1 c Hl1)) as (_ & H & _). }
  rewrite Hf.
  assert (Hs : strip_chars (lit "-_") (map lower1 cleaned) = map lower1 cleaned).
  { apply (strip_fixed_edges hyphen_like); assumption. }
  rewrite Hs.
  assert (Hn : nonempty (map lower1 cleaned) = true).
  { destruct cleaned; [discriminate | reflexivity]. }
  rewrite Hn.
  rewrite lower_is_map.
  - rewrite map_map. apply map_ext_in. intros c Hc. destruct (Hin c Hc) as [Hk Hl1].
    destruct (stable_inv c Hk (lower_char_stable_latin1 c Hl1)) as (_ & _ & _ & _ & H).
    unfold lower1 at 1. now rewrite H.
  - intros x Hx. apply in_map_iff in Hx as [c [<- Hc]]. destruct (Hin c Hc) as [Hk Hl1].
    now destruct (stable_inv c Hk (lower_char_stable_latin1 c Hl1)) as (_ & H1 & H2 & _).
Qed.

Lemma sanitize_is_idempotent_witness :
  sanitize_filename_segment (sanitize_filename_segment (lit "_Max-Mustermann_"))
  = sanitize_filename_segment (lit "_Max-Mustermann_")
  /\ edge_ok (sanitize_filename_segment (lit "_Max-Mustermann_"))
  /\ edge_ok (rev (sanitize_filename_segment (lit "_Max-Mustermann_"))).
Proof. apply (sanitize_is_idempotent (lit "_Max-Mustermann_")). vm_compute. reflexivity. Defined.

(** Outside Latin-1 the function is not idempotent. *)
Example sanitize_not_idempotent_U0130 :
  sanitize_filename_segment [304%N] = [105%N; 775%N]
  /\ sanitize_filename_segment [105%N; 775%N] = [105%N].
Proof. split; vm_compute; reflexivity. Qed.

(** ** The signed message *)

Lemma split_at_line_feed (a a' x x' : str) :
  no_line_feed a = true -> no_line_feed a' = true ->
  a ++ LF ++ x = a' ++ LF ++ x' -> a = a' /\ x = x'.
Proof.
  revert a'. induction a as [|c a IH]; intros [|c' a'] Ha Ha' H;
    cbn [app LF no_line_feed forallb] in *.
  - injection H as ->. now split.
  - injection H as <- _. discriminate.
  - injection H as -> _. discriminate.
  - injection H as -> H. apply andb_true_iff in Ha as [_ Ha].
    apply andb_true_iff in Ha' as [_ Ha'].
    destruct (IH a' Ha Ha' H) as [-> ->]. now split.
Qed.

(** X6: the signed message determines method, uri, body and timestamp as
    long as method, uri and body hold no line feed. *)
Theorem signed_message_injective (method uri body timestamp method' uri' body' timestamp' : str) :
  no_line_feed method = true -> no_line_feed uri = true -> no_line_feed body = true ->
  no_line_feed method' = true -> no_line_feed uri' = true -> no_line_feed body' = true ->
  join LF [method; uri; body; timestamp] = join LF [method'; uri'; body'; timestamp'] ->
  method = method' /\ uri = uri' /\ body = body' /\ timestamp = timestamp'.
Proof.
  intros Hm Hu Hb Hm' Hu' Hb' H. rewrite !join_four in H.
  destruct (split_at_line_feed _ _ _ _ Hm Hm' H) as [-> H1].
  destruct (split_at_line_feed _ _ _ _ Hu Hu' H1) as [-> H2].
  destruct (split_at_line_feed _ _ _ _ Hb Hb' H2) as [-> ->].
  repeat split.
Qed.

Lemma signed_message_injective_witness :
  lit "POST" = lit "POST" /\ lit "/v2/labels" = lit "/v2/labels"
  /\ lit "{}" = lit "{}" /\ lit "1700000000" = lit "1700000000".
Proof.
  apply (signed_message_injective (lit "POST") (lit "/v2/labels") (lit "{}")
           (lit "1700000000") (lit "POST") (lit "/v2/labels") (lit "{}")
           (lit "1700000000")); reflexivity.
Defined.

(** With a line feed in a field two requests share one signed message. *)
Example signed_message_ambiguous :
  join LF [lit "POST"; [10%N]; lit "b"; lit "1"]
  = join LF [lit "POST"; []; [10%N] ++ lit "b"; lit "1"] .
Proof. vm_compute. reflexivity. Qed.

Lemma utf8_char_defined (c : char) :
  utf8_char c <> None <-> scalar_value c = true.
Proof.
  unfold utf8_char, scalar_value. cbv zeta.
  destruct (Z.of_N c <? 128) eqn:E1.
  { apply Z.ltb_lt in E1. split; [intros _|discriminate].
    apply andb_true_iff. split; [apply orb_true_iff; left|]; apply N.ltb_lt; lia. }
  destruct (Z.of_N c <? 2048) eqn:E2.
  { apply Z.ltb_lt in E2. split; [intros _|discriminate].
    apply andb_true_iff. split; [apply orb_true_iff; left|]; apply N.ltb_lt; lia. }
  apply Z.ltb_ge in E1, E2.
  destruct (Z.of_N c <? 65536) eqn:E3.
  { apply Z.ltb_lt in E3.
    destruct (55296 <=? Z.of_N c) eqn:E4; destruct (Z.of_N c <=? 57343) eqn:E5; cbn [andb];
      try apply Z.leb_le in E4; try apply Z.leb_le in E5;
      try apply Z.leb_gt in E4; try apply Z.leb_gt in E5.
    - split; [congruence|]. intros H. apply andb_true_iff in H as [H _].
      apply orb_true_iff in H as [H|H]; apply N.ltb_lt in H; lia.
    - split; [intros _|discriminate].
      apply andb_true_iff. split; [apply orb_true_iff; right|]; apply N.ltb_lt; lia.
    - split; [intros _|discriminate].
      apply andb_true_iff. split; [apply orb_true_iff; left|]; apply N.ltb_lt; lia.
    - lia. }
  apply Z.ltb_ge in E3.
  destruct (Z.of_N c <? 1114112) eqn:E6.
  - apply Z.ltb_lt in E6. split; [intros _|discriminate].
    apply andb_true_iff. split; [apply orb_true_iff; right|]; apply N.ltb_lt; lia.
  - apply Z.ltb_ge in E6. split; [congruence|]. intros H. apply andb_true_iff in H as [_ H].
    apply N.ltb_lt in H. lia.
Qed.

Lemma encode_utf8_defined (s : str) :
  encode_utf8 s <> None <-> forallb scalar_value s = true.
Proof.
  induction s as [|c s IH]; cbn [encode_utf8 forallb]; [split; [reflexivity|discriminate]|].
  rewrite andb_true_iff, <- IH, <- utf8_char_defined.
  destruct (utf8_char c), (encode_utf8 s); split; intros H;
    try (split; congruence); try (destruct H; congruence); congruence.
Qed.

(** X7: [sign_request] returns a signature exactly when the five arguments
    hold Unicode scalar values only; otherwise the UTF-8 encoding raises. *)
Theorem sign_request_defined (method uri body timestamp secret_key : str) :
  (forallb scalar_value (method ++ uri ++ body ++ timestamp ++ secret_key) = true ->
   exists signature,
     sign_request method uri body timestamp secret_key = Ok signature
     /\ List.length signature = 64%nat)
  /\ (forallb scalar_value (method ++ uri ++ body ++ timestamp ++ secret_key) = false ->
      sign_request method uri body timestamp secret_key = Raise UnicodeEncodeError).
Proof.
  assert (Hmsg : encode_utf8 (join LF [method; uri; body; timestamp]) <> None
                 <-> forallb scalar_value (method ++ uri ++ body ++ timestamp) = true).
  { rewrite join_four, !encode_utf8_defined, !forallb_app. cbn [LF forallb].
    change (scalar_value 10%N) with true. cbn [andb].
    destruct (forallb scalar_value method), (forallb scalar_value uri),
      (forallb scalar_value body), (forallb scalar_value timestamp); cbn; tauto. }
  pose proof (encode_utf8_defined secret_key) as Hkey.
  unfold sign_request, encode. cbv zeta.
  split; intros H.
  - rewrite !forallb_app in H.
    rewrite !forallb_app in Hmsg.
    repeat (apply andb_true_iff in H as [? H]).
    destruct (encode_utf8 secret_key) as [kb|]; [|exfalso; apply Hkey; [exact H | reflexivity]].
    cbn [rbind].
    destruct (encode_utf8 (join LF [method; uri; body; timestamp])) as [mb|].
    + cbn [rbind]. eexists. split; [reflexivity|]. apply hexdigest_hmac.
    + exfalso. apply Hmsg; [|reflexivity].
      repeat (apply andb_true_iff; split); assumption.
  - destruct (encode_utf8 secret_key) as [kb|]; [|reflexivity]. cbn [rbind].
    destruct (encode_utf8 (join LF [method; uri; body; timestamp])) as [mb|]; [|reflexivity].
    exfalso. rewrite !forallb_app in H. rewrite !forallb_app in Hmsg.
    assert (Hk : forallb scalar_value secret_key = true) by (apply Hkey; discriminate).
    assert (Hm : (forallb scalar_value method && (forallb scalar_value uri &&
                  (forallb scalar_value body && forallb scalar_value timestamp)))%bool = true)
      by (apply Hmsg; discriminate).
    repeat (apply andb_true_iff in Hm as [? Hm]).
    rewrite Hk in H. 
    repeat match goal with X : forallb _ _ = true |- _ => rewrite X in H; clear X end.
    discriminate.
Qed.

Lemma sign_request_defined_witness :
  exists signature,
    sign_request (lit "POST") (lit "/v2/labels") (lit "{}") (lit "1700000000") (lit "secret")
    = Ok signature
    /\ List.length signature = 64%nat.
Proof.
  apply (proj1 (sign_request_defined (lit "POST") (lit "/v2/labels") (lit "{}")
                  (lit "1700000000") (lit "secret"))).
  vm_compute. reflexivity.
Defined.

(** ** Fetched rows and the connection string *)

Lemma str_eqb_eq (a b : str) : str_eqb a b = true <-> a = b.
Proof.
  revert b. induction a as [|x a IH]; intros [|y b]; cbn [str_eqb];
    try (split; [discriminate | discriminate]); [split; reflexivity|].
  rewrite andb_true_iff, N.eqb_eq, IH. split; [intros [-> ->]; reflexivity|].
  intros H. injection H as -> ->. now split.
Qed.

Lemma str_eqb_refl (a : str) : str_eqb a a = true.
Proof. now apply str_eqb_eq. Qed.

Lemma str_eqb_trans_l (a b c : str) : str_eqb a b = true -> str_eqb a c = str_eqb b c.
Proof. intros H. apply str_eqb_eq in H. now subst. Qed.

Lemma row_get_dict_set (key k : str) (v : pyval) (d : row) :
  row_get key (dict_set k v d) = if str_eqb k key then Some v else row_get key d.
Proof.
  induction d as [|[k' v'] d IH]; cbn [dict_set row_get]; [reflexivity|].
  destruct (str_eqb k' k) eqn:E; cbn [row_get].
  - rewrite (str_eqb_trans_l k' k key E). now destruct (str_eqb k key).
  - rewrite IH. destruct (str_eqb k' key) eqn:E'; [|reflexivity].
    destruct (str_eqb k key) eqn:E''; [|reflexivity].
    apply str_eqb_eq in E', E''. subst. rewrite str_eqb_refl in E. discriminate.
Qed.

Lemma row_dict_get (key : str) (columns : list str) :
  forall cells acc d,
    row_dict columns cells acc = Some d ->
    row_get key d = last_cell key columns cells (row_get key acc).
Proof.
  induction columns as [|c columns IH]; intros cells acc d H.
  - cbn [row_dict] in H. injection H as <-. reflexivity.
  - destruct cells as [|v cells]; [discriminate|]. cbn [row_dict last_cell] in *.
    rewrite (IH _ _ _ H), row_get_dict_set. reflexivity.
Qed.

Lemma row_dict_defined (columns : list str) :
  forall cells acc,
    (List.length columns <= List.length cells)%nat ->
    exists d, row_dict columns cells acc = Some d.
Proof.
  induction columns as [|c columns IH]; intros cells acc Hlen; [now exists acc|].
  destruct cells as [|v cells]; cbn [List.length] in Hlen; [lia|].
  cbn [row_dict]. apply IH. lia.
Qed.

Lemma last_cell_unique (key : str) (columns : list str) :
  forall cells found,
    ~ In key columns -> last_cell key columns cells found = found.
Proof.
  induction columns as [|c columns IH]; intros cells found Hnot; [reflexivity|].
  destruct cells as [|v cells]; [reflexivity|]. cbn [last_cell].
  rewrite IH by (intros H; apply Hnot; now right).
  destruct (str_eqb c key) eqn:E; [|reflexivity].
  apply str_eqb_eq in E. exfalso. apply Hnot. now left.
Qed.

Lemma last_cell_nth (columns : list str) :
  forall cells found i name v,
    NoDup columns ->
    nth_error columns i = Some name -> nth_error cells i = Some v ->
    last_cell name columns cells found = Some v.
Proof.
  induction columns as [|c columns IH]; intros cells found i name v Hnd Hc Hv.
  - destruct i; discriminate.
  - destruct cells as [|x cells]; [destruct i; discriminate|].
    inversion Hnd as [|c' cs' Hnot Hnd']; subst. cbn [last_cell].
    destruct i as [|i]; cbn [nth_error] in Hc, Hv.
    + injection Hc as ->. injection Hv as ->. rewrite str_eqb_refl.
      now apply last_cell_unique.
    + apply (IH cells _ i name v Hnd' Hc Hv).
Qed.

Lemma row_dicts_spec (columns : list str) :
  forall rows,
    Forall (fun cells => (List.length columns <= List.length cells)%nat) rows ->
    exists dicts,
      row_dicts columns rows = Some dicts
      /\ Forall2 (fun cells d =>
                   forall key, row_get key d = last_cell key columns cells None)
                 rows dicts.
Proof.
  induction 1 as [|cells rows Hlen _ [dicts [Hd Hall]]].
  - exists []. split; [reflexivity | constructor].
  - destruct (row_dict_defined columns cells [] Hlen) as [d Hrow].
    exists (d :: dicts). cbn [row_dicts]. rewrite Hrow, Hd. split; [reflexivity|].
    constructor; [|exact Hall]. intros key. apply (row_dict_get key columns cells [] d Hrow).
Qed.

(** X8: [fetch_order_rows] returns one dict per fetched row, in order; a
    key reads the cell of the last column whose lower-cased name it is, so
    that with column names that stay distinct in lower case every cell is
    found under the lower-cased name of its column, however the database
    spells it. *)
Theorem fetched_rows_by_lower_case_name (description : list str)
        (rows : list (list pyval)) :
  Forall (fun cells => (List.length description <= List.length cells)%nat) rows ->
  exists dicts,
    rows_of_cursor description rows = Some dicts
    /\ Forall2 (fun cells d =>
                 (forall key,
                     row_get key d = last_cell key (map Unicode.lower description) cells None)
                 /\ (NoDup (map Unicode.lower description) ->
                     forall i name v,
                       nth_error description i = Some name ->
                       nth_error cells i = Some v ->
                       row_get (Unicode.lower name) d = Some v))
               rows dicts.
Proof.
  intros Hlen.
  assert (Hlen' : Forall (fun cells => (List.length (map Unicode.lower description)
                                        <= List.length cells)%nat) rows).
  { rewrite length_map. exact Hlen. }
  destruct (row_dicts_spec _ rows Hlen') as [dicts [Hd Hall]].
  exists dicts. split.
  - unfold rows_of_cursor. destruct rows; [|exact Hd].
    cbn [row_dicts] in Hd. exact Hd.
  - clear Hd Hlen Hlen'. induction Hall as [|cells d rows dicts Hget _ IH]; constructor;
      [|exact IH].
    split; [exact Hget|]. intros Hnd i name v Hname Hv. rewrite Hget.
    apply (last_cell_nth _ cells None i (Unicode.lower name) v Hnd); [|exact Hv].
    rewrite nth_error_map, Hname. reflexivity.
Qed.

Lemma fetched_rows_by_lower_case_name_witness :
  exists dicts,
    rows_of_cursor [lit "BELEGNR"; lit "Code1"] [[PInt 4711; PStr (lit "A1")]] = Some dicts.
Proof.
  destruct (fetched_rows_by_lower_case_name [lit "BELEGNR"; lit "Code1"]
              [[PInt 4711; PStr (lit "A1")]]) as [dicts [H _]].
  - repeat constructor.
  - now exists dicts.
Defined.




(** ** The calls of a run *)

Section RunCalls.

Local Opaque aggregate_order_values sign_request find_download_url
      sanitize_filename_segment search_tracking pdf_text_of is_pdf order_identifier
      next_belegnr first_fsrowid str_of_Z lit Dumps.dumps_compact Dumps.dumps_indent2
      join truthy nonempty raises_for_status.

Lemma body_calls_in_order (w : world) :
  map rank (events (snd (body w initial_state)))
  = seq 1 (List.length (events (snd (body w initial_state))))
  /\ (1 <= List.length (events (snd (body w initial_state))) <= 7)%nat.
Proof.
  unfold_run. exec. all: split; [reflexivity | cbn; lia].
Qed.

Lemma body_post_signed (w : world) (u : str) (headers : list (str * str)) (data : str) :
  In (EvPost u headers data) (events (snd (body w initial_state))) ->
  exists rows agg signature,
    db_order_query w (order_number_input w) = inl rows
    /\ aggregate_order_values rows (order_number_input w) = Ok agg
    /\ u = uri w
    /\ data = Dumps.dumps_compact (request_data agg)
    /\ sign_request (lit "POST") u data (str_of_Z (unix_time w)) (shop_secret_key w)
       = Ok signature
    /\ headers = request_headers w signature.
Proof.
  unfold request_data, request_headers. unfold_run. exec.
  all: intros Hin.
  all: repeat (destruct Hin as [Hin|Hin]; try discriminate Hin); try contradiction.
  all: injection Hin as <- <- <-.
  all: do 3 eexists; repeat split; eassumption.
Qed.

Lemma body_stops_early (w : world) :
  (forall rows agg,
      db_order_query w (order_number_input w) = inl rows ->
      aggregate_order_values rows (order_number_input w) = Ok agg -> False) ->
  events (snd (body w initial_state)) = [EvOrderQuery (order_number_input w)]
  /\ order_number_db (snd (body w initial_state)) = None
  /\ (fst (body w initial_state) = Raise (SystemExit 1)
      \/ exists rows e,
          db_order_query w (order_number_input w) = inl rows
          /\ aggregate_order_values rows (order_number_input w) = Raise e
          /\ is_value_error e = false
          /\ fst (body w initial_state) = Raise e).
Proof.
  unfold_run. exec.
  all: intros Hnot.
  all: try (exfalso; eapply Hnot; [reflexivity | eassumption]).
  all: repeat split; try (left; reflexivity).
  all: right; do 2 eexists; repeat split; try eassumption; reflexivity.
Qed.

Lemma body_resolves_order_number (w : world) (rows : list row) (agg : aggregated) :
  db_order_query w (order_number_input w) = inl rows ->
  aggregate_order_values rows (order_number_input w) = Ok agg ->
  order_number_db (snd (body w initial_state))
  = Some (next_belegnr rows (order_number_input w)).
Proof.
  unfold_run. exec.
  all: intros Hq Ha.
  all: try discriminate Hq.
  all: injection Hq as <-.
  all: try congruence.
  all: try (rewrite aggregate_empty in Ha; discriminate Ha).
  all: reflexivity.
Qed.

Lemma body_post_unreachable (w : world) (u : str) (headers : list (str * str)) (data msg : str) :
  In (EvPost u headers data) (events (snd (body w initial_state))) ->
  http_post w u headers data = inr msg ->
  fst (body w initial_state) = Raise (RequestException msg)
  /\ events (snd (body w initial_state))
     = [EvOrderQuery (order_number_input w); EvPost u headers data].
Proof.
  unfold_run. exec.
  all: intros Hin Hpost.
  all: repeat (destruct Hin as [Hin|Hin]; try discriminate Hin); try contradiction.
  all: injection Hin as <- <- <-.
  all: match goal with
       | H : http_post _ _ _ _ = inl _ |- _ => rewrite H in Hpost; discriminate Hpost
       | H : http_post _ _ _ _ = inr _ |- _ => rewrite H in Hpost; injection Hpost as <-
       end.
  all: split; reflexivity.
Qed.

Lemma body_inserts (w : world) :
  (forall id number,
      In (EvInsertTracking id number) (events (snd (body w initial_state))) ->
      tracking_number (snd (body w initial_state)) = Some number
      /\ exists rows,
          db_order_query w (order_number_input w) = inl rows
          /\ first_fsrowid rows = Some id
          /\ nonempty id = true)
  /\ (forall id,
         In (EvInsertCarrier id) (events (snd (body w initial_state))) ->
         exists number,
           In (EvInsertTracking id number) (events (snd (body w initial_state)))
           /\ db_insert_tracking w id number = inl tt).
Proof.
  unfold_run. exec.
  all: split.
  all: try (intros id number Hin;
            repeat (destruct Hin as [Hin|Hin]; try discriminate Hin); try contradiction).
  all: try (intros id Hin;
            repeat (destruct Hin as [Hin|Hin]; try discriminate Hin); try contradiction).
  all: try (injection Hin as <- <-).
  all: try (injection Hin as <-).
  all: try match goal with
           | H : str_truthy (first_fsrowid ?rows) = true |- _ =>
               destruct (first_fsrowid rows) eqn:?; cbn in H |- *; [|discriminate H]
           end.
  all: try (split; [reflexivity|]; eexists; repeat split; eassumption).
  all: eexists; split; [auto 10|].
  all: repeat match goal with u : unit |- _ => destruct u end.
  all: try assumption.
Qed.

Lemma body_insert_failure (w : world) (id number msg : str) :
  In (EvInsertTracking id number) (events (snd (body w initial_state))) ->
  db_insert_tracking w id number = inr msg ->
  fst (body w initial_state) = Raise (SystemExit 1)
  /\ forallb (fun ev => negb (is_carrier ev)) (events (snd (body w initial_state))) = true
  /\ In (lit "Fehler beim Schreiben in die Datenbank: " ++ msg)
        (log_messages (snd (body w initial_state))).
Proof.
  unfold_run. exec.
  all: intros Hin Hdb.
  all: repeat (destruct Hin as [Hin|Hin]; try discriminate Hin); try contradiction.
  all: injection Hin as <- <-.
  all: match goal with
       | H : db_insert_tracking _ _ _ = inl _ |- _ => rewrite H in Hdb; discriminate Hdb
       | H : db_insert_tracking _ _ _ = inr _ |- _ => rewrite H in Hdb; injection Hdb as <-
       end.
  all: repeat split; auto 20.
Qed.

Lemma body_carrier_failure (w : world) (id msg : str) :
  In (EvInsertCarrier id) (events (snd (body w initial_state))) ->
  db_insert_carrier w id = inr msg ->
  fst (body w initial_state) = Raise (SystemExit 1)
  /\ In (lit "Fehler beim Schreiben in die Datenbank: " ++ msg)
        (log_messages (snd (body w initial_state))).
Proof.
  unfold_run. exec.
  all: intros Hin Hdb.
  all: repeat (destruct Hin as [Hin|Hin]; try discriminate Hin); try contradiction.
  all: injection Hin as <-.
  all: match goal with
       | H : db_insert_carrier _ _ = inl _ |- _ => rewrite H in Hdb; discriminate Hdb
       | H : db_insert_carrier _ _ = inr _ |- _ => rewrite H in Hdb; injection Hdb as <-
       end.
  all: repeat split; auto 20.
Qed.

Lemma body_completed (w : world) :
  fst (body w initial_state) = Ok tt ->
  exists path content,
    In (EvWriteFile path content) (events (snd (body w initial_state)))
    /\ fs_write w path content = inl tt
    /\ target_path (snd (body w initial_state)) = Some path
    /\ ((tracking_number (snd (body w initial_state)) = None
         /\ forallb (fun ev => negb (is_read_pdf ev)) (events (snd (body w initial_state)))
            = true
         /\ exists sfx, suffix (snd (body w initial_state)) = Some sfx
                        /\ is_pdf sfx (path_suffix w path) = false)
        \/ exists id number,
            tracking_number (snd (body w initial_state)) = Some number
            /\ In (EvInsertTracking id number) (events (snd (body w initial_state)))
            /\ In (EvInsertCarrier id) (events (snd (body w initial_state)))
            /\ db_insert_tracking w id number = inl tt
            /\ db_insert_carrier w id = inl tt).
Proof.
  unfold_run. exec.
  all: intros Hok; try discriminate Hok.
  all: repeat match goal with u : unit |- _ => destruct u end.
  all: do 2 eexists; split; [auto 10|]; split; [eassumption|]; split; [reflexivity|].
  all: try (left; split; [reflexivity|]; split; [reflexivity|];
            eexists; split; [reflexivity | assumption]).
  all: right; do 2 eexists; repeat split; try eassumption; auto 10.
Qed.

Lemma body_download_failure (w : world) (url : json) :
  In (EvGet url) (events (snd (body w initial_state))) ->
  (exists msg, http_get w url = inr msg)
  \/ (exists r, http_get w url = inl r /\ raises_for_status (dl_status_code r) = true) ->
  fst (body w initial_state) = Raise (SystemExit 1)
  /\ forallb (fun ev => negb (is_write_file ev)) (events (snd (body w initial_state))) = true
  /\ exists rows agg,
      db_order_query w (order_number_input w) = inl rows
      /\ aggregate_order_values rows (order_number_input w) = Ok agg
      /\ In (Dumps.dumps_indent2 (request_data agg)) (log_messages (snd (body w initial_state))).
Proof.
  unfold request_data. unfold_run. exec.
  all: intros Hin Hbad.
  all: repeat (destruct Hin as [Hin|Hin]; try discriminate Hin); try contradiction.
  all: injection Hin as <-.
  all: try (destruct Hbad as [[m Hm]|[dl [Hdl Hst]]]; congruence).
  all: repeat split; auto 20.
  all: do 2 eexists; split; [reflexivity|]; split; [eassumption|]; auto 20.
Qed.




Lemma body_no_download_url (w : world) (u : str) (headers : list (str * str)) (data : str)
      (resp : response) (answer : json) :
  In (EvPost u headers data) (events (snd (body w initial_state))) ->
  http_post w u headers data = inl resp ->
  raises_for_status (status_code resp) = false ->
  parsed resp = inl answer ->
  truthy_opt (find_download_url answer) = false ->
  fst (body w initial_state) = Raise (SystemExit 1)
  /\ In (text resp) (log_messages (snd (body w initial_state)))
  /\ events (snd (body w initial_state))
     = [EvOrderQuery (order_number_input w); EvPost u headers data].
Proof.
  unfold_run. exec.
  all: intros Hin Hpost Hst Hparsed Hurl.
  all: repeat (destruct Hin as [Hin|Hin]; try discriminate Hin); try contradiction.
  all: injection Hin as <- <- <-.
  all: match goal with
       | H : http_post _ _ _ _ = inl ?r |- _ =>
           rewrite H in Hpost; injection Hpost as <-
       | H : http_post _ _ _ _ = inr _ |- _ => rewrite H in Hpost; discriminate Hpost
       end.
  all: try congruence.
  all: try (match goal with
            | H : parsed _ = inl _ |- _ => rewrite H in Hparsed; injection Hparsed as <-
            end;
            match goal with
            | H : find_download_url _ = Some _ |- _ => rewrite H in Hurl; cbn in Hurl
            end;
            match goal with
            | H : negb (truthy _) = false |- _ =>
                apply negb_false_iff in H; congruence
            end).
  all: repeat split; auto 20.
Qed.

End RunCalls.

Lemma in_body_in_main (w : world) (ev : event) :
  In ev (events (snd (body w initial_state))) -> In ev (events (snd (main w))).
Proof.
  intros Hin. destruct (main_frame w) as (_ & Hev & _). rewrite Hev.
  apply in_or_app. now left.
Qed.

Lemma main_keeps_other_calls (f : event -> bool) (w : world) :
  (forall o t, f (EvUpdateMemo o t) = true) ->
  forallb f (events (snd (body w initial_state))) = true ->
  forallb f (events (snd (main w))) = true.
Proof.
  intros Hf H. destruct (main_frame w) as (_ & Hev & _).
  rewrite Hev, forallb_app, H. cbn [andb]. apply forallb_not_memo_call, Hf.
Qed.

Lemma in_body_log_in_main (w : world) (m : str) :
  In m (log_messages (snd (body w initial_state))) -> In m (log_messages (snd (main w))).
Proof.
  intros Hin. destruct (main_frame w) as (_ & _ & Hlog & _). rewrite Hlog.
  apply in_or_app. now left.
Qed.


Lemma next_belegnr_nonempty (rows : list row) (default : str) :
  nonempty default = true -> nonempty (next_belegnr rows default) = true.
Proof.
  intros Hd. induction rows as [|r rows IH]; cbn [next_belegnr]; [exact Hd|].
  destruct (row_get (lit "belegnr") r) as [[|z|s]|]; try exact IH.
  - destruct (nonempty (strip (py_str (PInt z)))) eqn:E; [exact E | exact IH].
  - destruct (nonempty (strip (py_str (PStr s)))) eqn:E; [exact E | exact IH].
Qed.

Lemma early_stop_events (w : world) :
  (forall rows agg,
      db_order_query w (order_number_input w) = inl rows ->
      aggregate_order_values rows (order_number_input w) = Ok agg -> False) ->
  events (snd (main w)) = [EvOrderQuery (order_number_input w)].
Proof.
  intros Hnot. destruct (body_stops_early w Hnot) as (Hev & Hnum & _).
  destruct (main_frame w) as (_ & Hev' & _).
  rewrite Hev', Hev. unfold memo_call. rewrite Hnum. reflexivity.
Qed.

(** X10: the calls of a run come in one fixed order, each at most once and
    none skipped: the order query, the label request, the download, the file
    write, the PDF read, the tracking write, the carrier write, and after
    them the memo write when an order number was resolved. *)
Theorem calls_in_fixed_order (w : world) :
  exists n,
    (1 <= n <= 7)%nat
    /\ map rank (events (snd (main w)))
       = seq 1 n ++ (if str_truthy (order_number_db (snd (main w))) then [8%nat] else []).
Proof.
  destruct (body_calls_in_order w) as [Hrank Hlen].
  destruct (main_frame w) as (_ & Hev & _ & _ & Hnum & _).
  exists (List.length (events (snd (body w initial_state)))). split; [exact Hlen|].
  rewrite Hev, map_app, Hrank, Hnum. f_equal. unfold memo_call.
  destruct (str_truthy (order_number_db (snd (body w initial_state)))); reflexivity.
Qed.

(** X11: the label request goes to the configured URI with the compact JSON
    of the aggregated rows as body, and its signature header is the
    signature of exactly that URI, that body and the time stamp sent in the
    time-stamp header. *)
Theorem label_request_is_signed (w : world) (u : str) (headers : list (str * str))
        (data : str) :
  In (EvPost u headers data) (events (snd (main w))) ->
  exists rows agg signature,
    db_order_query w (order_number_input w) = inl rows
    /\ aggregate_order_values rows (order_number_input w) = Ok agg
    /\ u = uri w
    /\ data = Dumps.dumps_compact (request_data agg)
    /\ sign_request (lit "POST") u data (str_of_Z (unix_time w)) (shop_secret_key w)
       = Ok signature
    /\ headers = request_headers w signature.
Proof.
  intros Hin. apply in_main_events in Hin; [|reflexivity].
  exact (body_post_signed w u headers data Hin).
Qed.

Lemma label_request_is_signed_witness :
  exists signature,
    sign_request (lit "POST") (uri world_ok)
      (snd (post_of (events (snd (main world_ok)))))
      (str_of_Z (unix_time world_ok)) (shop_secret_key world_ok) = Ok signature
    /\ snd (fst (post_of (events (snd (main world_ok))))) = request_headers world_ok signature.
Proof.
  destruct (label_request_is_signed world_ok
              (fst (fst (post_of (events (snd (main world_ok))))))
              (snd (fst (post_of (events (snd (main world_ok))))))
              (snd (post_of (events (snd (main world_ok))))))
    as (rows & agg & signature & _ & _ & Hu & _ & Hs & Hh).
  - vm_compute. right. left. reflexivity.
  - exists signature. rewrite <- Hu. split; assumption.
Defined.

(** X12: when the order query fails or returns no row, or the rows do not
    aggregate, the order query is the only call of the run: no label is
    requested and no memo is written, and the run does not complete. *)
Theorem no_call_without_order_data (w : world) :
  (forall rows agg,
      db_order_query w (order_number_input w) = inl rows ->
      aggregate_order_values rows (order_number_input w) = Ok agg -> False) ->
  events (snd (main w)) = [EvOrderQuery (order_number_input w)]
  /\ fst (main w) <> Completed
  /\ (fst (main w) = Aborted 1
      \/ exists rows e,
          db_order_query w (order_number_input w) = inl rows
          /\ aggregate_order_values rows (order_number_input w) = Raise e
          /\ is_value_error e = false
          /\ fst (main w) = outcome_of (Raise e)).
Proof.
  intros Hnot. destruct (body_stops_early w Hnot) as (Hev & Hnum & Hout).
  destruct (main_frame w) as (Hout' & Hev' & _).
  rewrite Hev', Hout', Hev. unfold memo_call. rewrite Hnum. cbn [str_truthy app].
  split; [reflexivity|]. split.
  - destruct Hout as [->|(rows & e & _ & _ & _ & ->)]; [discriminate|].
    destruct e; discriminate.
  - destruct Hout as [->|(rows & e & Hq & Ha & He & ->)]; [left; reflexivity|].
    right. exists rows, e. repeat split; assumption.
Qed.

Lemma no_call_without_order_data_witness :
  events (snd (main world_query_fails)) = [EvOrderQuery (order_number_input world_query_fails)]
  /\ fst (main world_query_fails) <> Completed.
Proof.
  destruct (no_call_without_order_data world_query_fails) as (H1 & H2 & _).
  - intros rows agg Hq. discriminate Hq.
  - split; assumption.
Defined.

(** X13: for a non-empty order number on the command line, the memo is
    written exactly in the runs whose order query returned rows that
    aggregate. *)
Theorem memo_written_iff_order_data (w : world) :
  nonempty (order_number_input w) = true ->
  existsb is_memo (events (snd (main w))) = true
  <-> exists rows agg,
      db_order_query w (order_number_input w) = inl rows
      /\ aggregate_order_values rows (order_number_input w) = Ok agg.
Proof.
  intros Hne. split.
  - intros Hmemo.
    destruct (db_order_query w (order_number_input w)) as [rows|msg] eqn:Hq.
    + destruct (aggregate_order_values rows (order_number_input w)) as [agg|e] eqn:Ha.
      * now exists rows, agg.
      * exfalso. rewrite (early_stop_events w) in Hmemo; [discriminate Hmemo|].
        intros rows' agg' Hq' Ha'. congruence.
    + exfalso. rewrite (early_stop_events w) in Hmemo; [discriminate Hmemo|].
      intros rows' agg' Hq'. congruence.
  - intros (rows & agg & Hq & Ha).
    destruct (main_frame w) as (_ & Hev & _). rewrite Hev, existsb_app.
    apply orb_true_iff. right. unfold memo_call.
    rewrite (body_resolves_order_number w rows agg Hq Ha). cbn [str_truthy].
    rewrite (next_belegnr_nonempty rows _ Hne). reflexivity.
Qed.

Lemma memo_written_iff_order_data_witness :
  existsb is_memo (events (snd (main world_get_fails))) = true
  <-> exists rows agg,
      db_order_query world_get_fails (order_number_input world_get_fails) = inl rows
      /\ aggregate_order_values rows (order_number_input world_get_fails) = Ok agg.
Proof. apply (memo_written_iff_order_data world_get_fails). reflexivity. Defined.

(** X14: a label request that gets no answer is not handled like a refused
    one: the exception leaves the body, the run ends with it after logging
    it as unexpected, and the run makes no further call but the memo
    write. *)
Theorem label_request_error_is_raised (w : world) (u : str) (headers : list (str * str))
        (data msg : str) :
  In (EvPost u headers data) (events (snd (main w))) ->
  http_post w u headers data = inr msg ->
  fst (main w) = Crashed (RequestException msg)
  /\ In (lit "Unerwarteter Fehler: " ++ msg) (log_messages (snd (main w)))
  /\ exists cleanup,
      events (snd (main w))
      = [EvOrderQuery (order_number_input w); EvPost u headers data] ++ cleanup
      /\ forallb is_memo cleanup = true.
Proof.
  intros Hin Hpost. apply in_main_events in Hin; [|reflexivity].
  destruct (body_post_unreachable w u headers data msg Hin Hpost) as [Hout Hev].
  destruct (main_frame w) as (Hout' & Hev' & Hlog & _).
  rewrite Hout', Hev', Hlog, Hout, Hev. split; [reflexivity|]. split.
  - apply in_or_app. right. apply in_or_app. left. left. reflexivity.
  - eexists. split; [reflexivity | apply memo_call_only_memo].
Qed.

Lemma label_request_error_is_raised_witness :
  fst (main world_post_fails) = Crashed (RequestException (lit "connection refused")).
Proof.
  destruct (label_request_error_is_raised world_post_fails
              (fst (fst (post_of (events (snd (main world_post_fails))))))
              (snd (fst (post_of (events (snd (main world_post_fails))))))
              (snd (post_of (events (snd (main world_post_fails)))))
              (lit "connection refused")) as (H & _).
  - vm_compute. right. left. reflexivity.
  - reflexivity.
  - exact H.
Defined.



(** X16: a failed tracking write aborts the run before the carrier write; a
    failed carrier write aborts the run with the tracking write already
    made; both failures are logged. *)
Theorem database_write_failures (w : world) :
  (forall id number msg,
      In (EvInsertTracking id number) (events (snd (main w))) ->
      db_insert_tracking w id number = inr msg ->
      fst (main w) = Aborted 1
      /\ forallb (fun ev => negb (is_carrier ev)) (events (snd (main w))) = true
      /\ In (lit "Fehler beim Schreiben in die Datenbank: " ++ msg)
            (log_messages (snd (main w))))
  /\ (forall id msg,
         In (EvInsertCarrier id) (events (snd (main w))) ->
         db_insert_carrier w id = inr msg ->
         fst (main w) = Aborted 1
         /\ In (lit "Fehler beim Schreiben in die Datenbank: " ++ msg)
               (log_messages (snd (main w)))
         /\ exists number,
             In (EvInsertTracking id number) (events (snd (main w)))
             /\ db_insert_tracking w id number = inl tt).
Proof.
  destruct (main_frame w) as (Hout & _).
  split.
  - intros id number msg Hin Hdb. apply in_main_events in Hin; [|reflexivity].
    destruct (body_insert_failure w id number msg Hin Hdb) as (H1 & H2 & H3).
    rewrite Hout, H1. split; [reflexivity|]. split.
    + apply main_keeps_other_calls; [reflexivity | exact H2].
    + apply in_body_log_in_main, H3.
  - intros id msg Hin Hdb. apply in_main_events in Hin; [|reflexivity].
    destruct (body_carrier_failure w id msg Hin Hdb) as (H1 & H2).
    rewrite Hout, H1. split; [reflexivity|]. split.
    + apply in_body_log_in_main, H2.
    + destruct (proj2 (body_inserts w) id Hin) as (number & Hin' & Hok).
      exists number. split; [apply in_body_in_main, Hin' | exact Hok].
Qed.

Lemma database_write_failures_witness :
  fst (main world_insert_fails) = Aborted 1
  /\ forallb (fun ev => negb (is_carrier ev)) (events (snd (main world_insert_fails))) = true.
Proof.
  destruct (proj1 (database_write_failures world_insert_fails)
              (lit "17") (lit "123456789012") (lit "23000")) as (H1 & H2 & _).
  - vm_compute. do 5 right. left. reflexivity.
  - reflexivity.
  - split; assumption.
Defined.

(** X17: a run completes only with the label stored; then either the label
    is no PDF and nothing is read or written to the database, or the
    tracking number was found and both database writes succeeded. *)
Theorem completed_run (w : world) :
  fst (main w) = Completed ->
  exists path content,
    In (EvWriteFile path content) (events (snd (main w)))
    /\ fs_write w path content = inl tt
    /\ target_path (snd (main w)) = Some path
    /\ ((tracking_number (snd (main w)) = None
         /\ forallb (fun ev => negb (is_read_pdf ev)) (events (snd (main w))) = true
         /\ exists sfx, suffix (snd (main w)) = Some sfx
                        /\ is_pdf sfx (path_suffix w path) = false)
        \/ exists id number,
            tracking_number (snd (main w)) = Some number
            /\ In (EvInsertTracking id number) (events (snd (main w)))
            /\ In (EvInsertCarrier id) (events (snd (main w)))
            /\ db_insert_tracking w id number = inl tt
            /\ db_insert_carrier w id = inl tt).
Proof.
  intros Hdone.
  destruct (main_frame w) as (Hout & _ & _ & _ & _ & Hs & Ht & Hn).
  assert (Hok : fst (body w initial_state) = Ok tt).
  { rewrite Hout in Hdone. destruct (fst (body w initial_state)) as [[]|[]];
      try discriminate Hdone; reflexivity. }
  destruct (body_completed w Hok) as (path & content & Hin & Hw & Hp & Hcase).
  exists path, content. rewrite Ht, Hn, Hs.
  split; [apply in_body_in_main, Hin|]. split; [exact Hw|]. split; [exact Hp|].
  destruct Hcase as [(H1 & H2 & H3)|(id & number & H1 & H2 & H3 & H4 & H5)].
  - left. split; [exact H1|]. split; [|exact H3].
    apply main_keeps_other_calls; [reflexivity | exact H2].
  - right. exists id, number. repeat split; try assumption; now apply in_body_in_main.
Qed.

Lemma completed_run_witness :
  exists path content,
    In (EvWriteFile path content) (events (snd (main world_png)))
    /\ fs_write world_png path content = inl tt.
Proof.
  destruct (completed_run world_png) as (path & content & H1 & H2 & _).
  - vm_compute. reflexivity.
  - exists path, content. split; assumption.
Defined.

(** X18: a download that fails, by a connection error or by a status from
    400 to 599, aborts the run: no file is written, and the request data are
    logged with indentation. *)
Theorem download_failure_aborts (w : world) (url : json) :
  In (EvGet url) (events (snd (main w))) ->
  (exists msg, http_get w url = inr msg)
  \/ (exists r, http_get w url = inl r /\ 400 <= dl_status_code r < 600) ->
  fst (main w) = Aborted 1
  /\ forallb (fun ev => negb (is_write_file ev)) (events (snd (main w))) = true
  /\ exists rows agg,
      db_order_query w (order_number_input w) = inl rows
      /\ aggregate_order_values rows (order_number_input w) = Ok agg
      /\ In (Dumps.dumps_indent2 (request_data agg)) (log_messages (snd (main w))).
Proof.
  intros Hin Hbad. apply in_main_events in Hin; [|reflexivity].
  assert (Hbad' : (exists msg, http_get w url = inr msg)
                  \/ (exists r, http_get w url = inl r
                                /\ raises_for_status (dl_status_code r) = true)).
  { destruct Hbad as [Hbad|(r & Hr & Hlo & Hhi)]; [now left|]. right. exists r.
    split; [exact Hr|]. unfold raises_for_status. apply andb_true_iff.
    split; [apply Z.leb_le | apply Z.ltb_lt]; assumption. }
  destruct (body_download_failure w url Hin Hbad') as (H1 & H2 & rows & agg & Hq & Ha & Hlog).
  destruct (main_frame w) as (Hout & _).
  rewrite Hout, H1. split; [reflexivity|]. split.
  - apply main_keeps_other_calls; [reflexivity | exact H2].
  - exists rows, agg. repeat split; try assumption. apply in_body_log_in_main, Hlog.
Qed.

Lemma download_failure_aborts_witness :
  fst (main world_get_fails) = Aborted 1
  /\ forallb (fun ev => negb (is_write_file ev)) (events (snd (main world_get_fails))) = true.
Proof.
  destruct (download_failure_aborts world_get_fails
              (get_of (events (snd (main world_get_fails))))) as (H1 & H2 & _).
  - vm_compute. do 2 right. left. reflexivity.
  - left. exists (lit "timed out"). reflexivity.
  - split; assumption.
Defined.







(** X22: an answer to the label request that is accepted and parsed but
    holds no download URL, or only empty ones, aborts the run: the raw
    response text is logged and nothing is downloaded. *)
Theorem no_download_url_aborts (w : world) (u : str) (headers : list (str * str))
        (data : str) (resp : response) (answer : json) :
  In (EvPost u headers data) (events (snd (main w))) ->
  http_post w u headers data = inl resp ->
  raises_for_status (status_code resp) = false ->
  parsed resp = inl answer ->
  truthy_opt (find_download_url answer) = false ->
  fst (main w) = Aborted 1
  /\ In (text resp) (log_messages (snd (main w)))
  /\ exists cleanup,
      events (snd (main w))
      = [EvOrderQuery (order_number_input w); EvPost u headers data] ++ cleanup
      /\ forallb is_memo cleanup = true.
Proof.
  intros Hin Hpost Hst Hparsed Hurl. apply in_main_events in Hin; [|reflexivity].
  destruct (body_no_download_url w u headers data resp answer Hin Hpost Hst Hparsed Hurl)
    as (H1 & H2 & H3).
  destruct (main_frame w) as (Hout & Hev & _).
  rewrite Hout, Hev, H1, H3. split; [reflexivity|]. split.
  - apply in_body_log_in_main, H2.
  - eexists. split; [reflexivity | apply memo_call_only_memo].
Qed.

Lemma no_download_url_aborts_witness :
  fst (main world_no_url) = Aborted 1
  /\ In (text response_without_url) (log_messages (snd (main world_no_url))).
Proof.
  destruct (no_download_url_aborts world_no_url
              (fst (fst (post_of (events (snd (main world_no_url))))))
              (snd (fst (post_of (events (snd (main world_no_url))))))
              (snd (post_of (events (snd (main world_no_url)))))
              response_without_url (JDict [])) as (H1 & H2 & _).
  - vm_compute. right. left. reflexivity.
  - reflexivity.
  - reflexivity.
  - reflexivity.
  - reflexivity.
  - split; assumption.
Defined.
